(** * Verification scripts of lotofacil-facilitador: failure capture and sequencing

    The repository holds three Playwright scripts
    ([verification/verify.py], [verification/comprehensive_verify.py] and
    [verification/verify_refactor.py]).  Each one drives a headless browser
    through a fixed sequence of calls, prints breadcrumbs, and writes
    screenshots.  The browser and the application behind it are external:
    they are modelled as an arbitrary deterministic oracle that answers every
    call either by returning or by raising.  The scripts themselves are
    embedded as programs of a small state-and-exception monad whose
    [try_except] and [try_finally] follow Python's statements. *)

From Stdlib Require Import ZArith Lia.
From stdpp Require Import base strings list gmap.

Local Open Scope Z_scope.
Local Open Scope string_scope.

(** ** The browser interface the scripts use *)

(** How a script designates an element: [page.click(sel)] and
    [page.fill(sel, v)] take a selector string; [page.locator(sel)] and
    [page.get_by_role(role, name=...)] build a locator object on which
    [fill] / [click] is then called. *)
Inductive target : Type :=
  | Selector (selector : string)
  | Locator (selector : string)
  | ByRole (role name : string).

(** One call into the browser-automation library.  Timeouts are in
    milliseconds; [None] is a call written without [timeout=]. *)
Inductive call : Type :=
  | Launch (headless : bool)
  | NewPage
  | Goto (url : string)
  | WaitForSelector (selector : string) (timeout : option Z)
  | WaitForTimeout (ms : Z)
  | Click (t : target)
  | Fill (t : target) (value : string)
  | IsVisible (selector : string)
  | Screenshot (path : string) (full_page : bool)
  | Close.

#[global] Instance target_eq_dec : EqDecision target.
Proof. solve_decision. Defined.

#[global] Instance call_eq_dec : EqDecision call.
Proof. solve_decision. Defined.

(** A Python exception object.  [exn_is_Exception] tells whether its class
    derives from [Exception], that is whether [except Exception] catches it
    ([KeyboardInterrupt] and [SystemExit] do not). *)
Record exn : Type := mk_exn {
  exn_class : string;
  exn_message : string;
  exn_is_Exception : bool
}.

#[global] Instance exn_eq_dec : EqDecision exn.
Proof. solve_decision. Defined.

(** What the library answers to a call.  The returned boolean is the value
    of [page.is_visible]; the scripts ignore the value of every other call
    (or only use it as the handle of the one browser and the one page). *)
Inductive reply : Type :=
  | Returns (v : bool)
  | Raises (e : exn).

(** The object bound by [with sync_playwright() as playwright]: it answers a
    call knowing the calls made so far in the session, so it stands for any
    deterministic browser and application. *)
Definition browser : Type := list call -> call -> reply.

Definition succeeds (playwright : browser) (h : list call) (c : call) : bool :=
  match playwright h c with
  | Returns _ => true
  | Raises _ => false
  end.

(** ** The world a script acts on *)

(** [session] is the log of the browser calls attempted since the playwright
    context was entered, [console] what [print] wrote, [fs] the files of the
    artifacts directory.  A screenshot file holds the page as the calls
    before the capture left it, which the log of those calls stands for.
    [driver_running] is the state of the playwright context manager. *)
Record world : Type := mk_world {
  session : list call;
  console : list string;
  fs : gmap string (list call);
  driver_running : bool
}.

Inductive result (A : Type) : Type :=
  | Val (a : A)
  | Exc (e : exn).
Arguments Val {A} a.
Arguments Exc {A} e.

Definition M (A : Type) : Type := world -> result A * world.

Definition ret {A} (a : A) : M A := fun w => (Val a, w).

Definition bind {A B} (m : M A) (k : A -> M B) : M B := fun w =>
  match m w with
  | (Val a, w') => k a w'
  | (Exc e, w') => (Exc e, w')
  end.

Definition raise {A} (e : exn) : M A := fun w => (Exc e, w).

Declare Scope script_scope.
Delimit Scope script_scope with script.
Notation "x <- m ;; k" := (bind m (fun x => k))
  (at level 100, m at next level, right associativity) : script_scope.
Notation "m ;; k" := (bind m (fun _ => k))
  (at level 100, right associativity) : script_scope.

(** [try: body  except Exception as e: handler e] *)
Definition try_except {A} (body : M A) (handler : exn -> M A) : M A := fun w =>
  match body w with
  | (Val a, w') => (Val a, w')
  | (Exc e, w') => if exn_is_Exception e then handler e w' else (Exc e, w')
  end.

(** [try: body  finally: cleanup]: the cleanup runs on every exit of the
    body; an exception of the cleanup replaces the outcome of the body. *)
Definition try_finally {A} (body : M A) (cleanup : M unit) : M A := fun w =>
  match body w with
  | (r, w') =>
      match cleanup w' with
      | (Val _, w'') => (r, w'')
      | (Exc e, w'') => (Exc e, w'')
      end
  end.

(** [print(msg)]; writing to the console is taken not to fail. *)
Definition print (msg : string) : M unit := fun w =>
  (Val tt, mk_world (session w) (console w ++ [msg]) (fs w) (driver_running w)).

(** The effect of a call that returned: a screenshot writes (or overwrites)
    its file, every other call leaves the files alone. *)
Definition record (c : call) (h : list call) (files : gmap string (list call))
  : gmap string (list call) :=
  match c with
  | Screenshot path _ => <[path := h]> files
  | _ => files
  end.

(** A call on the browser, the page or a locator. *)
Definition invoke (playwright : browser) (c : call) : M bool := fun w =>
  match playwright (session w) c with
  | Returns v =>
      (Val v, mk_world (session w ++ [c]) (console w)
                       (record c (session w) (fs w)) (driver_running w))
  | Raises e =>
      (Exc e, mk_world (session w ++ [c]) (console w) (fs w) (driver_running w))
  end.

(** [with sync_playwright() as playwright: body playwright]: entering starts
    a driver with a fresh session, leaving stops it, on every exit of the
    body, and lets an exception of the body through. *)
Definition with_sync_playwright {A} (sync_playwright : browser)
    (body : browser -> M A) : M A := fun w =>
  match body sync_playwright (mk_world [] (console w) (fs w) true) with
  | (r, w') => (r, mk_world (session w') (console w') (fs w') false)
  end.

(** ** Reading a browser along a list of calls *)

(** Every call of [cs], made in this order after the history [h], returns. *)
Fixpoint all_succeed (p : browser) (h cs : list call) : bool :=
  match cs with
  | [] => true
  | c :: cs' => succeeds p h c && all_succeed p (h ++ [c]) cs'
  end.

(** The first call of [cs] that raises when they are made in this order
    after [h]: its position in the whole history and its exception. *)
Fixpoint first_failure (p : browser) (h cs : list call) : option (nat * exn) :=
  match cs with
  | [] => None
  | c :: cs' =>
      match p h c with
      | Returns _ => first_failure p (h ++ [c]) cs'
      | Raises e => Some (length h, e)
      end
  end.

(** The files after the calls [cs] all returned, made after [h]. *)
Fixpoint replay (h cs : list call) (files : gmap string (list call))
  : gmap string (list call) :=
  match cs with
  | [] => files
  | c :: cs' => replay (h ++ [c]) cs' (record c h files)
  end.

(** How often the browser was closed in a session. *)
Definition closes (h : list call) : nat :=
  length (filter (fun c => c = Close) h).







Local Open Scope script_scope.

(** ** verification/verify.py *)
Module Verify.

Definition top10_header : string := "h3:has-text('Números Mais Sorteados (Top 10)')".

Definition run (playwright : browser) : M unit :=
  invoke playwright (Launch true) ;;
  invoke playwright NewPage ;;
  invoke playwright (Goto "http://localhost:5173") ;;
  print "Waiting for data to load..." ;;
  try_except
    (invoke playwright (WaitForSelector top10_header (Some 60000)))
    (fun e =>
       print "Timeout waiting for data to load. Taking screenshot..." ;;
       invoke playwright (Screenshot "verification/error_loading.png" true) ;;
       raise e) ;;
  print "Data loaded. Clicking button..." ;;
  invoke playwright (Click (Selector "button:has-text('Gerar Jogo')")) ;;
  print "Waiting for suggestion..." ;;
  try_except
    (invoke playwright (WaitForSelector "text=Seu jogo sugerido:" (Some 10000)))
    (fun e =>
       print "Timeout waiting for suggestion. Checking if error message appeared..." ;;
       visible <- invoke playwright (IsVisible ".bg-red-100") ;;
       (if visible then print "Error message found!" else ret tt) ;;
       print "Taking screenshot..." ;;
       invoke playwright (Screenshot "verification/error_suggestion_2.png" true) ;;
       raise e) ;;
  invoke playwright (WaitForSelector "text=Probabilidade Histórica (Backtest)" None) ;;
  print "Success. Taking screenshot..." ;;
  invoke playwright (Screenshot "verification/screenshot.png" true) ;;
  invoke playwright Close ;;
  ret tt.

(** Module level: [with sync_playwright() as playwright: run(playwright)] *)
Definition main (sync_playwright : browser) : M unit :=
  with_sync_playwright sync_playwright run.

(** The browser calls of [run] in program order, as made when none raises. *)
Definition calls : list call :=
  [ Launch true; NewPage; Goto "http://localhost:5173";
    WaitForSelector top10_header (Some 60000);
    Click (Selector "button:has-text('Gerar Jogo')");
    WaitForSelector "text=Seu jogo sugerido:" (Some 10000);
    WaitForSelector "text=Probabilidade Histórica (Backtest)" None;
    Screenshot "verification/screenshot.png" true;
    Close ].

(** The browser calls of the [except] block around the call at position
    [k] of [calls]; none when that call is outside every [try]. *)
Definition handler (k : nat) : list call :=
  match k with
  | 3%nat => [ Screenshot "verification/error_loading.png" true ]
  | 5%nat => [ IsVisible ".bg-red-100";
           Screenshot "verification/error_suggestion_2.png" true ]
  | _ => []
  end.

End Verify.

(** ** verification/comprehensive_verify.py *)
Module Comprehensive.

Definition top10_header : string := "h3:has-text('Números Mais Sorteados (Top 10)')".
Definition last_draw_header : string := "h3:has-text('Último Sorteio:')".
Definition game_number_input : string := "input[placeholder*='Digite o número do jogo']".

Definition run (playwright : browser) : M unit :=
  invoke playwright (Launch true) ;;
  invoke playwright NewPage ;;
  print "Navigating to app..." ;;
  invoke playwright (Goto "http://localhost:5173") ;;
  print "Verifying initial load..." ;;
  try_except
    (invoke playwright (WaitForSelector top10_header (Some 60000)) ;;
     invoke playwright (WaitForSelector last_draw_header (Some 10000)))
    (fun e =>
       print "Failed to load initial data." ;;
       invoke playwright (Screenshot "verification/fail_initial_load.png" true) ;;
       raise e) ;;
  print "Testing Generate Game and Backtest..." ;;
  try_except
    (invoke playwright (Click (Selector "button:has-text('Gerar Jogo')")) ;;
     invoke playwright (WaitForSelector "text=Seu jogo sugerido:" (Some 10000)) ;;
     invoke playwright (WaitForSelector "text=Probabilidade Histórica (Backtest)" (Some 10000)) ;;
     invoke playwright (WaitForSelector "text=11 Pontos" (Some 5000)) ;;
     invoke playwright (Screenshot "verification/success_backtest.png" true) ;;
     print "Backtest verified.")
    (fun e =>
       print "Failed during Generate/Backtest verification." ;;
       invoke playwright (Screenshot "verification/fail_backtest.png" true) ;;
       raise e) ;;
  print "Testing Search Game..." ;;
  try_except
    (invoke playwright (Fill (Selector game_number_input) "3000") ;;
     invoke playwright (Click (Selector "button:has-text('Buscar Jogo')")) ;;
     invoke playwright (WaitForSelector "text=Dezenas do jogo 3000" (Some 20000)) ;;
     invoke playwright (Screenshot "verification/success_search.png" true) ;;
     print "Search verified.")
    (fun e =>
       print "Failed during Search verification." ;;
       invoke playwright (Screenshot "verification/fail_search.png" true) ;;
       raise e) ;;
  invoke playwright Close ;;
  ret tt.

(** Module level: [with sync_playwright() as playwright: run(playwright)] *)
Definition main (sync_playwright : browser) : M unit :=
  with_sync_playwright sync_playwright run.

(** The browser calls of [run] in program order, as made when none raises:
    positions 0-2 open the application, 3-4 are the initial load, 5-9 the
    generate-and-backtest scenario, 10-13 the search scenario, 14 the close. *)
Definition calls : list call :=
  [ Launch true; NewPage; Goto "http://localhost:5173";
    WaitForSelector top10_header (Some 60000);
    WaitForSelector last_draw_header (Some 10000);
    Click (Selector "button:has-text('Gerar Jogo')");
    WaitForSelector "text=Seu jogo sugerido:" (Some 10000);
    WaitForSelector "text=Probabilidade Histórica (Backtest)" (Some 10000);
    WaitForSelector "text=11 Pontos" (Some 5000);
    Screenshot "verification/success_backtest.png" true;
    Fill (Selector game_number_input) "3000";
    Click (Selector "button:has-text('Buscar Jogo')");
    WaitForSelector "text=Dezenas do jogo 3000" (Some 20000);
    Screenshot "verification/success_search.png" true;
    Close ].

(** The path of the failure screenshot of the [try] block that holds the
    call at position [k] of [calls]; [None] outside every [try]. *)
Definition fail_shot (k : nat) : option string :=
  match k with
  | 3 | 4 => Some "verification/fail_initial_load.png"
  | 5 | 6 | 7 | 8 | 9 => Some "verification/fail_backtest.png"
  | 10 | 11 | 12 | 13 => Some "verification/fail_search.png"
  | _ => None
  end%nat.

(** The browser calls of the [except] block around position [k]. *)
Definition handler (k : nat) : list call :=
  match fail_shot k with
  | Some path => [ Screenshot path true ]
  | None => []
  end.

End Comprehensive.

(** ** verification/verify_refactor.py

    [page.locator(...)] and [page.get_by_role(...)] only build a locator
    object; the browser is reached when [fill] or [click] is called on it. *)
Module Refactor.

Definition verify_game_search (playwright : browser) : M unit :=
  invoke playwright (Goto "http://localhost:5173") ;;
  invoke playwright (WaitForSelector "h1" None) ;;
  invoke playwright (Fill (Locator "#gameNumberInput") "2500") ;;
  invoke playwright (Screenshot "verification/verification_input.png" false) ;;
  invoke playwright (Click (ByRole "button" "Buscar Jogo")) ;;
  invoke playwright (WaitForTimeout 1000) ;;
  invoke playwright (Screenshot "verification/verification_search.png" false) ;;
  ret tt.

(** The body of [if __name__ == "__main__":] *)
Definition main_body (p : browser) : M unit :=
  invoke p (Launch true) ;;
  invoke p NewPage ;;
  try_finally
    (verify_game_search p)
    (invoke p Close ;; ret tt).

(** The module: the guard runs the body only when the file is the program. *)
Definition main (name_is_main : bool) (sync_playwright : browser) : M unit :=
  if name_is_main then with_sync_playwright sync_playwright main_body
  else ret tt.

(** The browser calls of the program in order, as made when none raises:
    positions 0-1 open the browser, 2-8 are [verify_game_search], 9 is the
    [finally]. *)
Definition calls : list call :=
  [ Launch true; NewPage;
    Goto "http://localhost:5173";
    WaitForSelector "h1" None;
    Fill (Locator "#gameNumberInput") "2500";
    Screenshot "verification/verification_input.png" false;
    Click (ByRole "button" "Buscar Jogo");
    WaitForTimeout 1000;
    Screenshot "verification/verification_search.png" false;
    Close ].

End Refactor.

(** ** The files each script can write *)

Definition verify_artifacts : list string :=
  [ "verification/error_loading.png";
    "verification/error_suggestion_2.png";
    "verification/screenshot.png" ].

Definition comprehensive_artifacts : list string :=
  [ "verification/fail_initial_load.png";
    "verification/success_backtest.png";
    "verification/fail_backtest.png";
    "verification/success_search.png";
    "verification/fail_search.png" ].

Definition refactor_artifacts : list string :=
  [ "verification/verification_input.png";
    "verification/verification_search.png" ].

(** ** Browsers to run the scripts against *)

(** The failure Playwright raises when a wait or an action times out. *)
Definition timeout_error (what : string) : exn :=
  mk_exn "TimeoutError" what true.

(** The failure of a capture that cannot write its file. *)
Definition capture_error : exn :=
  mk_exn "Error" "screenshot: cannot write file" true.

Fixpoint planned_failure (failures : list (call * exn)) (c : call) : option exn :=
  match failures with
  | [] => None
  | (c', e) :: rest =>
      if bool_decide (c' = c) then Some e else planned_failure rest c
  end.

(** A browser in which exactly the listed calls raise, whatever came
    before, and the error banner is visible or not as [banner] says. *)
Definition scripted (failures : list (call * exn)) (banner : bool) : browser :=
  fun _ c =>
    match planned_failure failures c with
    | Some e => Raises e
    | None => Returns banner
    end.

(** The application answers every call. *)
Definition healthy : browser := scripted [] false.

(** The application cannot be reached: navigation times out. *)
Definition unreachable : browser :=
  scripted [(Goto "http://localhost:5173", timeout_error "goto")] false.

(** The application never shows the Top-10 header. *)
Definition no_data : browser :=
  scripted [(WaitForSelector "h3:has-text('Números Mais Sorteados (Top 10)')" (Some 60000),
             timeout_error "h3:has-text('Números Mais Sorteados (Top 10)')")] false.

(** The page has no Generate Game button. *)
Definition no_generate_button : browser :=
  scripted [(Click (Selector "button:has-text('Gerar Jogo')"),
             timeout_error "button:has-text('Gerar Jogo')")] false.

(** No suggested game appears; the error banner shows or not. *)
Definition no_suggestion (banner : bool) : browser :=
  scripted [(WaitForSelector "text=Seu jogo sugerido:" (Some 10000),
             timeout_error "text=Seu jogo sugerido:")] banner.

(** The backtest shows no line with 11 points. *)
Definition no_eleven_points : browser :=
  scripted [(WaitForSelector "text=11 Pontos" (Some 5000),
             timeout_error "text=11 Pontos")] false.

(** The same, and the failure screenshot cannot be written either. *)
Definition no_eleven_points_no_capture : browser :=
  scripted [(WaitForSelector "text=11 Pontos" (Some 5000),
             timeout_error "text=11 Pontos");
            (Screenshot "verification/fail_backtest.png" true, capture_error)]
           false.

(** No data, and the failure screenshot of verify.py cannot be written. *)
Definition no_data_no_capture : browser :=
  scripted [(WaitForSelector "h3:has-text('Números Mais Sorteados (Top 10)')" (Some 60000),
             timeout_error "h3:has-text('Números Mais Sorteados (Top 10)')");
            (Screenshot "verification/error_loading.png" true, capture_error)]
           false.

(** Game 3000 does not exist: its draws never appear. *)
Definition no_game_3000 : browser :=
  scripted [(WaitForSelector "text=Dezenas do jogo 3000" (Some 20000),
             timeout_error "text=Dezenas do jogo 3000")] false.

(** Ctrl-C: an exception whose class does not derive from [Exception]. *)
Definition keyboard_interrupt : exn :=
  mk_exn "KeyboardInterrupt" "" false.

(** The user interrupts the 11-points wait of comprehensive_verify.py. *)
Definition interrupted_backtest : browser :=
  scripted [(WaitForSelector "text=11 Pontos" (Some 5000), keyboard_interrupt)]
           false.

(** The user interrupts the suggestion wait of verify.py. *)
Definition interrupted_suggestion : browser :=
  scripted [(WaitForSelector "text=Seu jogo sugerido:" (Some 10000),
             keyboard_interrupt)] false.

(** The page of verify_refactor.py has no Search Game button. *)
Definition no_search_button : browser :=
  scripted [(Click (ByRole "button" "Buscar Jogo"),
             timeout_error "get_by_role('button', name='Buscar Jogo')")] false.

(** The same, and closing the browser fails too. *)
Definition no_search_button_no_close : browser :=
  scripted [(Click (ByRole "button" "Buscar Jogo"),
             timeout_error "get_by_role('button', name='Buscar Jogo')");
            (Close, mk_exn "Error" "Target closed" true)] false.

(** The browser starts but no page can be created. *)
Definition no_page : browser :=
  scripted [(NewPage, mk_exn "Error" "Target closed" true)] false.

(** Every step passes, but success_backtest.png cannot be written. *)
Definition no_success_capture : browser :=
  scripted [(Screenshot "verification/success_backtest.png" true, capture_error)]
           false.

(** Every step passes and both screenshots are written, but closing the
    browser fails. *)
Definition no_close : browser :=
  scripted [(Close, mk_exn "Error" "Target closed" true)] false.

(** Game 3000 does not exist, and fail_search.png cannot be written. *)
Definition no_game_3000_no_capture : browser :=
  scripted [(WaitForSelector "text=Dezenas do jogo 3000" (Some 20000),
             timeout_error "text=Dezenas do jogo 3000");
            (Screenshot "verification/fail_search.png" true, capture_error)]
           false.

(** No suggested game appears, and error_suggestion_2.png cannot be
    written. *)
Definition no_suggestion_no_capture (banner : bool) : browser :=
  scripted [(WaitForSelector "text=Seu jogo sugerido:" (Some 10000),
             timeout_error "text=Seu jogo sugerido:");
            (Screenshot "verification/error_suggestion_2.png" true, capture_error)]
           banner.

(** The page is gone: the suggestion wait and the banner check both fail. *)
Definition page_gone : browser :=
  scripted [(WaitForSelector "text=Seu jogo sugerido:" (Some 10000),
             mk_exn "Error" "Target closed" true);
            (IsVisible ".bg-red-100", mk_exn "Error" "Target closed" true)]
           false.

(** An artifacts directory that is empty, before any script ran. *)
Definition fresh : world := mk_world [] [] ∅ false.

(** ** The part of a run that does not depend on the world it starts in *)

(** [strip w] forgets what was printed and written before; [graft w d] puts
    what a run from [strip w] printed and wrote on top of [w]. *)
Definition strip (w : world) : world :=
  mk_world (session w) [] ∅ (driver_running w).

Definition graft (w d : world) : world :=
  mk_world (session d) (console w ++ console d) (fs d ∪ fs w) (driver_running d).

(** A program is framed when console and files only ever grow on top of
    what was there, and nothing it does depends on them. *)
Definition framed {A} (m : M A) : Prop :=
  forall w, m w = ((m (strip w)).1, graft w (m (strip w)).2).

(** A program keeps to the paths [paths] when it leaves every other file as
    it found it, deletes none, and only adds lines to the console. *)
Definition keeps_to {A} (paths : list string) (m : M A) : Prop :=
  forall w,
    console w `prefix_of` console (m w).2 /\
    (forall path, is_Some (fs w !! path) -> is_Some (fs (m w).2 !! path)) /\
    (forall path, path ∉ paths -> fs (m w).2 !! path = fs w !! path).

(** What a call that returns may write. *)
Definition writes_within (paths : list string) (c : call) : Prop :=
  match c with
  | Screenshot path _ => path ∈ paths
  | _ => True
  end.

Local Open Scope list_scope.

(** ** Evaluating a script step by step *)

Lemma eval_bind_ret {A B} (a : A) (k : A -> M B) w : bind (ret a) k w = k a w.
Proof. reflexivity. Qed.

Lemma eval_bind_raise {A B} e (k : A -> M B) w : bind (raise e) k w = (Exc e, w).
Proof. reflexivity. Qed.

Lemma eval_bind_print {B} s (k : unit -> M B) w :
  bind (print s) k w =
  k tt (mk_world (session w) (console w ++ [s]) (fs w) (driver_running w)).
Proof. reflexivity. Qed.

Lemma eval_invoke p c rep w :
  p (session w) c = rep ->
  invoke p c w =
  match rep with
  | Returns v =>
      (Val v, mk_world (session w ++ [c]) (console w)
                       (record c (session w) (fs w)) (driver_running w))
  | Raises e =>
      (Exc e, mk_world (session w ++ [c]) (console w) (fs w) (driver_running w))
  end.
Proof. intros <-. unfold invoke. by destruct (p (session w) c). Qed.

Lemma eval_bind_invoke {B} p c rep (k : bool -> M B) w :
  p (session w) c = rep ->
  bind (invoke p c) k w =
  match rep with
  | Returns v =>
      k v (mk_world (session w ++ [c]) (console w)
                    (record c (session w) (fs w)) (driver_running w))
  | Raises e =>
      (Exc e, mk_world (session w ++ [c]) (console w) (fs w) (driver_running w))
  end.
Proof. intros H. unfold bind. rewrite (eval_invoke _ _ _ _ H). by destruct rep. Qed.

Lemma eval_bind_try_except {A B} (body : M A) handler (k : A -> M B) w :
  bind (try_except body handler) k w =
  match body w with
  | (Val a, w') => k a w'
  | (Exc e, w') =>
      if exn_is_Exception e then bind (handler e) k w' else (Exc e, w')
  end.
Proof.
  unfold bind, try_except. destruct (body w) as [[a|e] w']; [done|].
  by destruct (exn_is_Exception e).
Qed.

Lemma eval_bind_assoc {A B C} (m : M C) (f : C -> M A) (k : A -> M B) w :
  bind (bind m f) k w = bind m (fun x => bind (f x) k) w.
Proof. unfold bind. by destruct (m w) as [[a|e] w']. Qed.

Lemma eval_try_finally {A} (body : M A) cleanup w :
  try_finally body cleanup w =
  match cleanup (body w).2 with
  | (Val _, w'') => ((body w).1, w'')
  | (Exc e, w'') => (Exc e, w'')
  end.
Proof. unfold try_finally. by destruct (body w). Qed.

Lemma eval_with_sync_playwright {A} p (body : browser -> M A) w :
  with_sync_playwright p body w =
  let x := body p (mk_world [] (console w) (fs w) true) in
  (x.1, mk_world (session x.2) (console x.2) (fs x.2) false).
Proof. unfold with_sync_playwright. by destruct (body p _). Qed.

Lemma first_failure_returns p h c cs v :
  p h c = Returns v -> first_failure p h (c :: cs) = first_failure p (h ++ [c]) cs.
Proof. intros H. cbn [first_failure]. by rewrite H. Qed.

Lemma first_failure_raises p h c cs e :
  p h c = Raises e -> first_failure p h (c :: cs) = Some (length h, e).
Proof. intros H. cbn [first_failure]. by rewrite H. Qed.

Lemma all_succeed_returns p h c cs v :
  p h c = Returns v -> all_succeed p h (c :: cs) = all_succeed p (h ++ [c]) cs.
Proof. intros H. cbn [all_succeed]. unfold succeeds. by rewrite H. Qed.

Lemma all_succeed_raises p h c cs e :
  p h c = Raises e -> all_succeed p h (c :: cs) = false.
Proof. intros H. cbn [all_succeed]. unfold succeeds. by rewrite H. Qed.

Lemma succeeds_returns p h c :
  succeeds p h c = true -> exists v, p h c = Returns v.
Proof. unfold succeeds. destruct (p h c); [eauto | discriminate]. Qed.

(** Unfold the tables of a script in a hypothesis. *)
Ltac tables H :=
  unfold Comprehensive.calls, Comprehensive.handler, Verify.calls in H;
  cbn [Comprehensive.fail_shot Verify.handler take drop app length] in H.

(** Use a reply that just became known in what is assumed of the browser. *)
Ltac note_reply Hr :=
  repeat match goal with
  | H : first_failure _ _ (_ :: _) = _ |- _ =>
      first [ rewrite (first_failure_returns _ _ _ _ _ Hr) in H
            | rewrite (first_failure_raises _ _ _ _ _ Hr) in H ];
      cbn [app length] in H
  | H : first_failure _ _ [] = _ |- _ => cbn [first_failure] in H
  | H : all_succeed _ _ (_ :: _) = _ |- _ =>
      first [ rewrite (all_succeed_returns _ _ _ _ _ Hr) in H
            | rewrite (all_succeed_raises _ _ _ _ _ Hr) in H ];
      cbn [app] in H
  | H : all_succeed _ _ [] = _ |- _ => cbn [all_succeed] in H
  end;
  try discriminate;
  try match goal with
  | H : Some (_, _) = Some (?k, ?e) |- _ =>
      injection H as ? ?; try subst k; try subst e; try discriminate;
      repeat match goal with
      | H' : first_failure _ _ _ = _ |- _ => progress tables H'
      | H' : all_succeed _ _ _ = _ |- _ => progress tables H'
      end
  end.

Ltac know_reply p h c :=
  lazymatch goal with
  | Hr : p h c = _ |- _ => idtac
  | _ => let Hr := fresh "Hr" in destruct (p h c) eqn:Hr; note_reply Hr
  end.

Ltac tidy_in E := cbn [session console fs driver_running app fst snd] in E.

(** Evaluate the program on the right of [E : x = program world]. *)
Ltac exec_in E :=
  tidy_in E;
  lazymatch type of E with
  | _ = bind (ret _) _ _ => rewrite eval_bind_ret in E; exec_in E
  | _ = bind (raise _) _ _ => rewrite eval_bind_raise in E
  | _ = bind (print _) _ _ => rewrite eval_bind_print in E; exec_in E
  | _ = bind (bind _ _) _ _ => rewrite eval_bind_assoc in E; exec_in E
  | _ = bind (if ?b then _ else _) _ _ => destruct b; exec_in E
  | _ = bind (invoke ?p ?c) ?k (mk_world ?h ?o ?f ?d) =>
      know_reply p h c;
      match goal with
      | Hr : p h c = _ |- _ =>
          rewrite (eval_bind_invoke p c _ k (mk_world h o f d) Hr) in E
      end;
      cbv beta iota in E; exec_in E
  | _ = bind (try_except ?body _) _ ?w =>
      rewrite eval_bind_try_except in E;
      let y := fresh "y" in
      let Ey := fresh "Ey" in
      remember (body w) as y eqn:Ey in E;
      exec_in Ey; subst y; cbv beta iota in E; exec_in E
  | _ = try_finally ?body ?cleanup ?w =>
      rewrite eval_try_finally in E;
      let y := fresh "y" in
      let Ey := fresh "Ey" in
      remember (body w) as y eqn:Ey in E;
      exec_in Ey; subst y; tidy_in E;
      lazymatch type of E with
      | _ = match cleanup ?w' with _ => _ end =>
          let z := fresh "z" in
          let Ez := fresh "Ez" in
          remember (cleanup w') as z eqn:Ez in E;
          exec_in Ez; subst z; cbv beta iota in E; tidy_in E
      end
  | _ = (if exn_is_Exception ?e then _ else _) =>
      lazymatch goal with
      | He : exn_is_Exception e = _ |- _ => rewrite He in E
      | _ => let He := fresh "He" in destruct (exn_is_Exception e) eqn:He
      end;
      exec_in E
  | _ = invoke ?p ?c (mk_world ?h ?o ?f ?d) =>
      know_reply p h c;
      match goal with
      | Hr : p h c = _ |- _ =>
          rewrite (eval_invoke p c _ (mk_world h o f d) Hr) in E
      end;
      cbv beta iota in E; tidy_in E
  | _ = ret _ _ => unfold ret in E
  | _ = raise _ _ => unfold raise in E
  | _ = print _ _ => unfold print in E; tidy_in E
  | _ = (_, _) => idtac
  end.

(** Evaluate a module-level [with sync_playwright() ...] in the goal. *)
Ltac run_main :=
  unfold Comprehensive.main, Verify.main;
  rewrite eval_with_sync_playwright; cbv zeta;
  lazymatch goal with
  | |- context [?body ?p (mk_world [] ?c ?f true)] =>
      let x := fresh "x" in
      let E := fresh "E" in
      remember (body p (mk_world [] c f true)) as x eqn:E;
      unfold body in E; exec_in E; subst x;
      cbn [fst snd session console fs driver_running]
  end.

(** Look a path up in the files a run left. *)
Ltac files :=
  unfold record;
  repeat first [ rewrite lookup_insert_eq
               | rewrite lookup_insert_ne by discriminate ].

(** ** comprehensive_verify.py: what a run does, by its first failing call *)

(** Every call returns: the run returns, with both success screenshots. *)
Lemma comprehensive_success p w :
  all_succeed p [] Comprehensive.calls = true ->
  Comprehensive.main p w =
    (Val tt,
     mk_world Comprehensive.calls
       (console w ++
        [ "Navigating to app..."; "Verifying initial load...";
          "Testing Generate Game and Backtest..."; "Backtest verified.";
          "Testing Search Game..."; "Search verified." ])
       (<["verification/success_search.png" := take 13 Comprehensive.calls]>
          (<["verification/success_backtest.png" := take 9 Comprehensive.calls]>
             (fs w)))
       false).
Proof.
  intros H. tables H. run_main.
  unfold record. by rewrite <- !app_assoc.
Qed.

(** Call [k] is the first to raise, and the handler's capture returns. *)
Lemma comprehensive_failure p w k e :
  first_failure p [] Comprehensive.calls = Some (k, e) ->
  exn_is_Exception e = true ->
  all_succeed p (take (S k) Comprehensive.calls) (Comprehensive.handler k) = true ->
  (Comprehensive.main p w).1 = Exc e /\
  session (Comprehensive.main p w).2
    = take (S k) Comprehensive.calls ++ Comprehensive.handler k /\
  fs (Comprehensive.main p w).2
    = replay (take (S k) Comprehensive.calls) (Comprehensive.handler k)
        (replay [] (take k Comprehensive.calls) (fs w)).
Proof.
  intros H He Hh. tables H. run_main; by repeat split.
Qed.

(** Call [k] is the first to raise, and then a call of the handler raises. *)
Lemma comprehensive_handler_failure p w k e n x :
  first_failure p [] Comprehensive.calls = Some (k, e) ->
  exn_is_Exception e = true ->
  first_failure p (take (S k) Comprehensive.calls) (Comprehensive.handler k)
    = Some (n, x) ->
  (Comprehensive.main p w).1 = Exc x /\
  session (Comprehensive.main p w).2
    = take (S n) (take (S k) Comprehensive.calls ++ Comprehensive.handler k) /\
  fs (Comprehensive.main p w).2 = replay [] (take k Comprehensive.calls) (fs w).
Proof.
  intros H He Hh. tables H. run_main; by repeat split.
Qed.

(** ** verify.py: what a run does, by its first failing call *)

Lemma verify_failure p w k e :
  first_failure p [] Verify.calls = Some (k, e) ->
  exn_is_Exception e = true ->
  all_succeed p (take (S k) Verify.calls) (Verify.handler k) = true ->
  (Verify.main p w).1 = Exc e /\
  session (Verify.main p w).2 = take (S k) Verify.calls ++ Verify.handler k /\
  fs (Verify.main p w).2
    = replay (take (S k) Verify.calls) (Verify.handler k)
        (replay [] (take k Verify.calls) (fs w)).
Proof.
  intros H He Hh. tables H. run_main; by repeat split.
Qed.

Lemma verify_handler_failure p w k e n x :
  first_failure p [] Verify.calls = Some (k, e) ->
  exn_is_Exception e = true ->
  first_failure p (take (S k) Verify.calls) (Verify.handler k) = Some (n, x) ->
  (Verify.main p w).1 = Exc x /\
  session (Verify.main p w).2
    = take (S n) (take (S k) Verify.calls ++ Verify.handler k) /\
  fs (Verify.main p w).2 = replay [] (take k Verify.calls) (fs w).
Proof.
  intros H He Hh. tables H. run_main; by repeat split.
Qed.

(** Call [k] is the first to raise, with an exception that [except
    Exception] does not catch. *)
Lemma comprehensive_uncaught p w k e :
  first_failure p [] Comprehensive.calls = Some (k, e) ->
  exn_is_Exception e = false ->
  (Comprehensive.main p w).1 = Exc e /\
  session (Comprehensive.main p w).2 = take (S k) Comprehensive.calls /\
  fs (Comprehensive.main p w).2 = replay [] (take k Comprehensive.calls) (fs w).
Proof.
  intros H He. tables H. run_main; by repeat split.
Qed.

Lemma verify_uncaught p w k e :
  first_failure p [] Verify.calls = Some (k, e) ->
  exn_is_Exception e = false ->
  (Verify.main p w).1 = Exc e /\
  session (Verify.main p w).2 = take (S k) Verify.calls /\
  fs (Verify.main p w).2 = replay [] (take k Verify.calls) (fs w).
Proof.
  intros H He. tables H. run_main; by repeat split.
Qed.

(** ** A run only adds to the console and to the files *)

Lemma strip_graft w d : strip (graft w d) = strip d.
Proof. reflexivity. Qed.

Lemma graft_assoc w d1 d2 : graft (graft w d1) d2 = graft w (graft d1 d2).
Proof.
  unfold graft. cbn [session console fs driver_running].
  by rewrite app_assoc, (assoc_L (∪)).
Qed.

Lemma graft_strip w : graft w (strip w) = w.
Proof.
  destruct w as [h out files d]. unfold graft, strip.
  cbn [session console fs driver_running].
  by rewrite app_nil_r, (left_id_L ∅ (∪)).
Qed.

Lemma framed_ret {A} (a : A) : framed (ret a).
Proof. intros w. unfold ret. cbn [fst snd]. by rewrite graft_strip. Qed.

Lemma framed_raise {A} e : framed (@raise A e).
Proof. intros w. unfold raise. cbn [fst snd]. by rewrite graft_strip. Qed.

Lemma framed_print s : framed (print s).
Proof.
  intros w. unfold print, strip, graft.
  cbn [fst snd session console fs driver_running app].
  by rewrite (left_id_L ∅ (∪)).
Qed.

Lemma framed_invoke p c : framed (invoke p c).
Proof.
  intros w. unfold invoke, strip, graft. cbn [session console fs driver_running].
  destruct (p (session w) c) as [v|e]; cbn [fst snd session console fs driver_running];
    rewrite app_nil_r; f_equal; f_equal.
  - destruct c; cbn [record]; try by rewrite (left_id_L ∅ (∪)).
    by rewrite <- insert_union_l, (left_id_L ∅ (∪)).
  - by rewrite (left_id_L ∅ (∪)).
Qed.

Lemma framed_bind {A B} (m : M A) (k : A -> M B) :
  framed m -> (forall a, framed (k a)) -> framed (bind m k).
Proof.
  intros Hm Hk w. unfold bind. rewrite (Hm w).
  destruct (m (strip w)) as [[a|e] d]; cbn [fst snd]; [|done].
  rewrite (Hk a (graft w d)), strip_graft, graft_assoc.
  rewrite (Hk a d). cbn [fst snd]. reflexivity.
Qed.

Lemma framed_try_except {A} (body : M A) (handler : exn -> M A) :
  framed body -> (forall e, framed (handler e)) -> framed (try_except body handler).
Proof.
  intros Hb Hh w. unfold try_except. rewrite (Hb w).
  destruct (body (strip w)) as [[a|e] d]; cbn [fst snd]; [done|].
  destruct (exn_is_Exception e); [|done].
  rewrite (Hh e (graft w d)), strip_graft, graft_assoc.
  rewrite (Hh e d). cbn [fst snd]. reflexivity.
Qed.

Lemma framed_try_finally {A} (body : M A) (cleanup : M unit) :
  framed body -> framed cleanup -> framed (try_finally body cleanup).
Proof.
  intros Hb Hc w. unfold try_finally. rewrite (Hb w).
  destruct (body (strip w)) as [r d]; cbn [fst snd].
  rewrite (Hc (graft w d)), strip_graft, graft_assoc.
  rewrite (Hc d).
  by destruct (cleanup (strip d)) as [[[]|e] d'].
Qed.

Lemma framed_if {A} (b : bool) (m1 m2 : M A) :
  framed m1 -> framed m2 -> framed (if b then m1 else m2).
Proof. by destruct b. Qed.

Ltac framed_script :=
  repeat first
    [ apply framed_ret | apply framed_raise | apply framed_print
    | apply framed_invoke | apply framed_if
    | apply framed_bind; [| intros ?]
    | apply framed_try_except; [| intros ?]
    | apply framed_try_finally ].

Lemma framed_comprehensive_run p : framed (Comprehensive.run p).
Proof. unfold Comprehensive.run. framed_script. Qed.

Lemma framed_verify_run p : framed (Verify.run p).
Proof. unfold Verify.run. framed_script. Qed.

Lemma framed_refactor_main_body p : framed (Refactor.main_body p).
Proof. unfold Refactor.main_body, Refactor.verify_game_search. framed_script. Qed.

(** A module-level run from any world is the run from the empty artifacts
    directory, put on top of that world. *)
Lemma with_sync_playwright_frame {A} p (body : browser -> M A) w :
  framed (body p) ->
  with_sync_playwright p body w =
    ((with_sync_playwright p body fresh).1,
     graft w (with_sync_playwright p body fresh).2).
Proof.
  intros Hb. unfold with_sync_playwright, fresh.
  cbn [session console fs driver_running].
  rewrite (Hb (mk_world [] (console w) (fs w) true)).
  unfold strip. cbn [session console fs driver_running].
  destruct (body p (mk_world [] [] ∅ true)) as [r d]. cbn [fst snd].
  reflexivity.
Qed.

(** ** The call tables *)

Lemma first_failure_bound p h cs k e :
  first_failure p h cs = Some (k, e) ->
  (length h <= k < length h + length cs)%nat.
Proof.
  revert h. induction cs as [|c cs IH]; intros h H; [discriminate|].
  cbn [first_failure] in H. destruct (p h c) as [v|x].
  - apply IH in H. rewrite length_app in H. cbn [length] in *. lia.
  - injection H as <- _. cbn [length]. lia.
Qed.

(** The calls before the first failure all returned. *)
Lemma first_failure_prefix p h cs k e :
  first_failure p h cs = Some (k, e) ->
  all_succeed p h (take (k - length h) cs) = true.
Proof.
  revert h. induction cs as [|c cs IH]; intros h H; [discriminate|].
  cbn [first_failure] in H. destruct (p h c) as [v|x] eqn:Hr.
  - pose proof (first_failure_bound _ _ _ _ _ H) as Hb.
    apply IH in H. rewrite length_app in H, Hb. cbn [length] in *.
    replace (k - length h)%nat with (S (k - (length h + 1)))%nat by lia.
    cbn [take all_succeed]. unfold succeeds. by rewrite Hr.
  - injection H as <- _. by rewrite Nat.sub_diag.
Qed.

Lemma comprehensive_fail_shot_cases k path :
  Comprehensive.fail_shot k = Some path ->
  path = "verification/fail_initial_load.png" \/
  path = "verification/fail_backtest.png" \/
  path = "verification/fail_search.png".
Proof.
  do 14 (destruct k as [|k]; [cbn; intros [= <-]; auto|]).
  discriminate.
Qed.

(** No call is written twice in a script, and no handler repeats one. *)
Lemma comprehensive_calls_nodup k :
  NoDup (Comprehensive.calls ++ Comprehensive.handler k).
Proof.
  unfold Comprehensive.handler.
  destruct (Comprehensive.fail_shot k) as [path|] eqn:Hs.
  - apply comprehensive_fail_shot_cases in Hs as [-> | [-> | ->]];
      apply (bool_decide_unpack _); by vm_compute.
  - apply (bool_decide_unpack _). by vm_compute.
Qed.

Lemma verify_calls_nodup k : NoDup (Verify.calls ++ Verify.handler k).
Proof.
  do 6 (destruct k as [|k]; [apply (bool_decide_unpack _); by vm_compute|]).
  apply (bool_decide_unpack _). by vm_compute.
Qed.

Lemma nodup_prefix_app (cs hs : list call) n :
  NoDup (cs ++ hs) -> NoDup (take n cs ++ hs).
Proof.
  intros H. apply (sublist_NoDup _ _ H).
  apply sublist_app; [apply sublist_take | done].
Qed.

(** A call written after position [k] is not among the first [k+1] calls
    nor in the handler. *)
Lemma later_call_not_made (cs hs : list call) k j c :
  NoDup (cs ++ hs) -> (k < j)%nat -> cs !! j = Some c ->
  c ∉ take (S k) cs ++ hs.
Proof.
  intros Hnd Hlt Hj [Hin | Hin]%elem_of_app.
  - apply NoDup_app in Hnd as (Hcs & _ & _).
    apply elem_of_take in Hin as (i & Hi & Hlt').
    pose proof (NoDup_lookup _ _ _ _ Hcs Hi Hj). lia.
  - apply NoDup_app in Hnd as (_ & Hdisj & _).
    apply (Hdisj c); [by eapply list_elem_of_lookup_2 | done].
Qed.

(** Either some call of a list raises or all of them return. *)
Lemma first_failure_none p h cs :
  first_failure p h cs = None -> all_succeed p h cs = true.
Proof.
  revert h. induction cs as [|c cs IH]; intros h H; [done|].
  cbn [first_failure all_succeed] in *. unfold succeeds.
  destruct (p h c) as [v|x]; [|discriminate]. by apply IH.
Qed.

Lemma nodup_prefixes (cs hs : list call) n j :
  NoDup (cs ++ hs) -> NoDup (take n cs ++ take j hs).
Proof.
  intros H. apply (sublist_NoDup _ _ H).
  apply sublist_app; apply sublist_take.
Qed.

Lemma later_call_not_made_prefix (cs hs : list call) k j i c :
  NoDup (cs ++ hs) -> (k < j)%nat -> cs !! j = Some c ->
  c ∉ take (S k) cs ++ take i hs.
Proof.
  intros Hnd Hlt Hj Hin. apply (later_call_not_made cs hs k j c Hnd Hlt Hj).
  apply elem_of_app in Hin as [Hin | Hin]; apply elem_of_app; [by left|right].
  apply elem_of_take in Hin as (n & Hn & _). by eapply list_elem_of_lookup_2.
Qed.

(** What every run of comprehensive_verify.py with a failing call looks
    like: it ends with a failure, after the calls up to the failing one and
    then some first calls of its handler. *)
Lemma comprehensive_failure_shape p w k e :
  first_failure p [] Comprehensive.calls = Some (k, e) ->
  exists j x,
    (Comprehensive.main p w).1 = Exc x /\
    session (Comprehensive.main p w).2
    = take (S k) Comprehensive.calls ++ take j (Comprehensive.handler k).
Proof.
  intros H. destruct (exn_is_Exception e) eqn:He.
  - destruct (first_failure p (take (S k) Comprehensive.calls)
                (Comprehensive.handler k)) as [[n x]|] eqn:Hh.
    + destruct (comprehensive_handler_failure p w k e n x H He Hh) as (Hr & Hs & _).
      pose proof (first_failure_bound _ _ _ _ _ Hh) as [Hn _].
      exists (S n - length (take (S k) Comprehensive.calls))%nat, x.
      split; [done|]. rewrite Hs. apply take_app_ge. lia.
    + apply first_failure_none in Hh.
      destruct (comprehensive_failure p w k e H He Hh) as (Hr & Hs & _).
      exists (length (Comprehensive.handler k)), e.
      by rewrite firstn_all.
  - destruct (comprehensive_uncaught p w k e H He) as (Hr & Hs & _).
    exists 0%nat, e. by rewrite take_0, app_nil_r.
Qed.

Lemma verify_failure_shape p w k e :
  first_failure p [] Verify.calls = Some (k, e) ->
  exists j x,
    (Verify.main p w).1 = Exc x /\
    session (Verify.main p w).2
    = take (S k) Verify.calls ++ take j (Verify.handler k).
Proof.
  intros H. destruct (exn_is_Exception e) eqn:He.
  - destruct (first_failure p (take (S k) Verify.calls) (Verify.handler k))
      as [[n x]|] eqn:Hh.
    + destruct (verify_handler_failure p w k e n x H He Hh) as (Hr & Hs & _).
      pose proof (first_failure_bound _ _ _ _ _ Hh) as [Hn _].
      exists (S n - length (take (S k) Verify.calls))%nat, x.
      split; [done|]. rewrite Hs. apply take_app_ge. lia.
    + apply first_failure_none in Hh.
      destruct (verify_failure p w k e H He Hh) as (Hr & Hs & _).
      exists (length (Verify.handler k)), e.
      by rewrite firstn_all.
  - destruct (verify_uncaught p w k e H He) as (Hr & Hs & _).
    exists 0%nat, e. by rewrite take_0, app_nil_r.
Qed.

(** ** Closing the browser *)

(** comprehensive_verify.py reaches [browser.close()] only when every call
    before it returned. *)
Lemma comprehensive_closes p w :
  closes (session (Comprehensive.main p w).2)
  = if all_succeed p [] (take 14 Comprehensive.calls) then 1%nat else 0%nat.
Proof.
  destruct (all_succeed _ _ _) eqn:H; tables H; run_main; reflexivity.
Qed.

(** verify.py likewise. *)
Lemma verify_closes p w :
  closes (session (Verify.main p w).2)
  = if all_succeed p [] (take 8 Verify.calls) then 1%nat else 0%nat.
Proof.
  destruct (all_succeed _ _ _) eqn:H; tables H; run_main; reflexivity.
Qed.

(** verify_refactor.py closes the browser in a [finally]: once the browser
    is launched and the page created, every exit of [verify_game_search]
    closes it exactly once. *)
Lemma refactor_closes_once p w :
  all_succeed p [] [Launch true; NewPage] = true ->
  closes (session (Refactor.main true p w).2) = 1%nat.
Proof.
  intros H. unfold Refactor.main. rewrite eval_with_sync_playwright. cbv zeta.
  remember (Refactor.main_body p _) as x eqn:E.
  unfold Refactor.main_body, Refactor.verify_game_search in E.
  exec_in E; subst x; reflexivity.
Qed.

(** The playwright context is left on every exit of the three scripts. *)
Lemma driver_stopped_on_exit {A} p (body : browser -> M A) w :
  driver_running (with_sync_playwright p body w).2 = false.
Proof. unfold with_sync_playwright. by destruct (body p _). Qed.

(** An example: when the application never shows the Top-10 header, the
    first wait times out; comprehensive_verify.py and verify.py end without
    ever calling [browser.close()], and verify_refactor.py, whose wait for
    [h1] fails, calls it once from its [finally]. *)
Lemma failed_run_never_closes_browser :
  let r := Comprehensive.main no_data fresh in
  r.1 = Exc (timeout_error "h3:has-text('Números Mais Sorteados (Top 10)')") /\
  session r.2 =
    [ Launch true; NewPage; Goto "http://localhost:5173";
      WaitForSelector Comprehensive.top10_header (Some 60000);
      Screenshot "verification/fail_initial_load.png" true ] /\
  closes (session r.2) = 0%nat /\
  closes (session (Verify.main no_data fresh).2) = 0%nat /\
  closes (session (Refactor.main true
                     (scripted [(WaitForSelector "h1" None, timeout_error "h1")] false)
                     fresh).2) = 1%nat.
Proof.
  cbv zeta. repeat split; by vm_compute.
Qed.

(** *** The browser handle *)






(** ** Failure capture *)

(** C1, as the scripts implement it.  Let call [k] be the first call of a
    run to raise, with any exception [e].  Whatever happens next, the run
    ends with a failure, makes no call of the script after [k] and repeats
    none: after the first [k+1] calls it only makes calls of the [except]
    block around [k], in their order.  When [except Exception] catches [e]
    and the calls of that block return (its diagnostic capture, preceded in
    verify.py's suggestion handler by the banner check), all of them are
    made, the failure screenshot is written, holding the page as the failing
    call left it, and [e] itself is re-raised.  When there is no block around
    [k] (launch, new page, navigation, close) or [except Exception] does not
    catch [e], the run ends with [e] itself right after call [k] and nothing
    is captured. *)
Theorem guarded_failure_is_captured_then_reraised p w k e :
  (first_failure p [] Comprehensive.calls = Some (k, e) ->
   let r := Comprehensive.main p w in
   (exists x, r.1 = Exc x) /\
   (exists j, session r.2
              = take (S k) Comprehensive.calls ++ take j (Comprehensive.handler k)) /\
   NoDup (session r.2) /\
   (exn_is_Exception e = true ->
    all_succeed p (take (S k) Comprehensive.calls) (Comprehensive.handler k) = true ->
    r.1 = Exc e /\
    session r.2 = take (S k) Comprehensive.calls ++ Comprehensive.handler k /\
    forall path, Comprehensive.fail_shot k = Some path ->
      fs r.2 !! path = Some (take (S k) Comprehensive.calls)) /\
   (Comprehensive.handler k = [] \/ exn_is_Exception e = false ->
    r.1 = Exc e /\
    session r.2 = take (S k) Comprehensive.calls /\
    fs r.2 = replay [] (take k Comprehensive.calls) (fs w)))
  /\
  (first_failure p [] Verify.calls = Some (k, e) ->
   let r := Verify.main p w in
   (exists x, r.1 = Exc x) /\
   (exists j, session r.2 = take (S k) Verify.calls ++ take j (Verify.handler k)) /\
   NoDup (session r.2) /\
   (exn_is_Exception e = true ->
    all_succeed p (take (S k) Verify.calls) (Verify.handler k) = true ->
    r.1 = Exc e /\
    session r.2 = take (S k) Verify.calls ++ Verify.handler k /\
    forall path full, last (Verify.handler k) = Some (Screenshot path full) ->
      fs r.2 !! path
      = Some (take (S k) Verify.calls ++ removelast (Verify.handler k))) /\
   (Verify.handler k = [] \/ exn_is_Exception e = false ->
    r.1 = Exc e /\
    session r.2 = take (S k) Verify.calls /\
    fs r.2 = replay [] (take k Verify.calls) (fs w))).
Proof.
  split; intros H r; subst r.
  - destruct (comprehensive_failure_shape p w k e H) as (j & x & Hx & Hj).
    split; [by exists x|]. split; [by exists j|]. split; [|split].
    + rewrite Hj. apply nodup_prefixes, comprehensive_calls_nodup.
    + intros He Hh.
      destruct (comprehensive_failure p w k e H He Hh) as (Hr & Hs & Hf).
      rewrite Hr, Hs, Hf. repeat split.
      intros path Hp. unfold Comprehensive.handler. rewrite Hp.
      cbn [replay record]. apply lookup_insert_eq.
    + intros [Hn | He].
      * destruct (exn_is_Exception e) eqn:He.
        -- destruct (comprehensive_failure p w k e H He) as (Hr & Hs & Hf);
             [by rewrite Hn|].
           rewrite Hr, Hs, Hf, Hn. by rewrite app_nil_r.
        -- exact (comprehensive_uncaught p w k e H He).
      * exact (comprehensive_uncaught p w k e H He).
  - destruct (verify_failure_shape p w k e H) as (j & x & Hx & Hj).
    split; [by exists x|]. split; [by exists j|]. split; [|split].
    + rewrite Hj. apply nodup_prefixes, verify_calls_nodup.
    + intros He Hh.
      destruct (verify_failure p w k e H He Hh) as (Hr & Hs & Hf).
      rewrite Hr, Hs, Hf. repeat split.
      intros path full Hp.
      destruct k as [|[|[|[|[|[|k]]]]]]; try discriminate Hp;
        injection Hp as <- <-; cbn [Verify.handler replay record app removelast];
        rewrite ?app_nil_r; apply lookup_insert_eq.
    + intros [Hn | He].
      * destruct (exn_is_Exception e) eqn:He.
        -- destruct (verify_failure p w k e H He) as (Hr & Hs & Hf);
             [by rewrite Hn|].
           rewrite Hr, Hs, Hf, Hn. by rewrite app_nil_r.
        -- exact (verify_uncaught p w k e H He).
      * exact (verify_uncaught p w k e H He).
Qed.

(** The 11-points wait of comprehensive_verify.py and the suggestion wait of
    verify.py time out, and the captures work. *)
Lemma guarded_failure_witness :
  (first_failure no_eleven_points [] Comprehensive.calls
     = Some (8%nat, timeout_error "text=11 Pontos") /\
   (Comprehensive.main no_eleven_points fresh).1
     = Exc (timeout_error "text=11 Pontos") /\
   fs (Comprehensive.main no_eleven_points fresh).2 !! "verification/fail_backtest.png"
     = Some (take 9 Comprehensive.calls)) /\
  (first_failure (no_suggestion true) [] Verify.calls
     = Some (5%nat, timeout_error "text=Seu jogo sugerido:") /\
   (Verify.main (no_suggestion true) fresh).1
     = Exc (timeout_error "text=Seu jogo sugerido:") /\
   fs (Verify.main (no_suggestion true) fresh).2 !! "verification/error_suggestion_2.png"
     = Some (take 6 Verify.calls ++ [IsVisible ".bg-red-100"])).
Proof.
  assert (Hc : first_failure no_eleven_points [] Comprehensive.calls
               = Some (8%nat, timeout_error "text=11 Pontos"))
    by (vm_compute; reflexivity).
  assert (Hv : first_failure (no_suggestion true) [] Verify.calls
               = Some (5%nat, timeout_error "text=Seu jogo sugerido:"))
    by (vm_compute; reflexivity).
  split.
  - destruct (proj1 (guarded_failure_is_captured_then_reraised
                 no_eleven_points fresh 8 (timeout_error "text=11 Pontos")) Hc)
      as (_ & _ & _ & Hok & _).
    destruct (Hok eq_refl ltac:(vm_compute; reflexivity)) as (Hr & _ & Hf).
    split; [exact Hc|]. split; [exact Hr|]. exact (Hf _ eq_refl).
  - destruct (proj2 (guarded_failure_is_captured_then_reraised
                 (no_suggestion true) fresh 5
                 (timeout_error "text=Seu jogo sugerido:")) Hv)
      as (_ & _ & _ & Hok & _).
    destruct (Hok eq_refl ltac:(vm_compute; reflexivity)) as (Hr & _ & Hf).
    split; [exact Hv|]. split; [exact Hr|]. exact (Hf _ _ eq_refl).
Defined.

(** C1 as stated fails: a step outside every [try] fails without any
    screenshot.  With the application unreachable, [page.goto] of
    comprehensive_verify.py raises and the run ends after three calls with no
    file written; with no Generate Game button, [page.click] of verify.py
    raises and that run too writes nothing. *)
Lemma unguarded_failure_leaves_no_screenshot :
  (let r := Comprehensive.main unreachable fresh in
   r.1 = Exc (timeout_error "goto") /\
   session r.2 = [Launch true; NewPage; Goto "http://localhost:5173"] /\
   fs r.2 = ∅) /\
  (let r := Verify.main no_generate_button fresh in
   r.1 = Exc (timeout_error "button:has-text('Gerar Jogo')") /\
   session r.2 = take 5 Verify.calls /\
   fs r.2 = ∅).
Proof. cbv zeta. repeat split; by vm_compute. Qed.

(** C3, as the scripts implement it.  The capture runs inside the [except]
    block with nothing around it.  When call [k] raised [e] and the calls of
    its handler return, the run ends with [e].  When a call of the handler
    raises [x] instead (the capture, or in verify.py's suggestion handler the
    banner check before it), the run ends with [x], not with [e], after that
    call, and no failure screenshot is written. *)
Theorem capture_failure_replaces_step_failure p w k e :
  exn_is_Exception e = true ->
  (first_failure p [] Comprehensive.calls = Some (k, e) ->
   let r := Comprehensive.main p w in
   (all_succeed p (take (S k) Comprehensive.calls) (Comprehensive.handler k) = true ->
    r.1 = Exc e) /\
   (forall n x,
    first_failure p (take (S k) Comprehensive.calls) (Comprehensive.handler k)
      = Some (n, x) ->
    r.1 = Exc x /\
    session r.2
      = take (S n) (take (S k) Comprehensive.calls ++ Comprehensive.handler k) /\
    fs r.2 = replay [] (take k Comprehensive.calls) (fs w)))
  /\
  (first_failure p [] Verify.calls = Some (k, e) ->
   let r := Verify.main p w in
   (all_succeed p (take (S k) Verify.calls) (Verify.handler k) = true ->
    r.1 = Exc e) /\
   (forall n x,
    first_failure p (take (S k) Verify.calls) (Verify.handler k) = Some (n, x) ->
    r.1 = Exc x /\
    session r.2 = take (S n) (take (S k) Verify.calls ++ Verify.handler k) /\
    fs r.2 = replay [] (take k Verify.calls) (fs w))).
Proof.
  intros He. split; intros H r; subst r; split.
  - intros Hh. exact (proj1 (comprehensive_failure p w k e H He Hh)).
  - intros n x Hh. exact (comprehensive_handler_failure p w k e n x H He Hh).
  - intros Hh. exact (proj1 (verify_failure p w k e H He Hh)).
  - intros n x Hh. exact (verify_handler_failure p w k e n x H He Hh).
Qed.

(** The 11-points wait of comprehensive_verify.py and the data wait of
    verify.py time out, and the capture of the handler fails. *)
Lemma capture_failure_witness :
  (first_failure no_eleven_points_no_capture [] Comprehensive.calls
     = Some (8%nat, timeout_error "text=11 Pontos") /\
   first_failure no_eleven_points_no_capture
     (take 9 Comprehensive.calls) (Comprehensive.handler 8)
     = Some (9%nat, capture_error) /\
   (Comprehensive.main no_eleven_points_no_capture fresh).1 = Exc capture_error) /\
  (first_failure no_data_no_capture [] Verify.calls
     = Some (3%nat, timeout_error "h3:has-text('Números Mais Sorteados (Top 10)')") /\
   first_failure no_data_no_capture (take 4 Verify.calls) (Verify.handler 3)
     = Some (4%nat, capture_error) /\
   (Verify.main no_data_no_capture fresh).1 = Exc capture_error).
Proof.
  assert (Hc : first_failure no_eleven_points_no_capture [] Comprehensive.calls
               = Some (8%nat, timeout_error "text=11 Pontos"))
    by (vm_compute; reflexivity).
  assert (Hc' : first_failure no_eleven_points_no_capture
                  (take 9 Comprehensive.calls) (Comprehensive.handler 8)
                = Some (9%nat, capture_error))
    by (vm_compute; reflexivity).
  assert (Hv : first_failure no_data_no_capture [] Verify.calls
               = Some (3%nat, timeout_error "h3:has-text('Números Mais Sorteados (Top 10)')"))
    by (vm_compute; reflexivity).
  assert (Hv' : first_failure no_data_no_capture (take 4 Verify.calls) (Verify.handler 3)
                = Some (4%nat, capture_error))
    by (vm_compute; reflexivity).
  split.
  - split; [exact Hc|]. split; [exact Hc'|].
    exact (proj1 (proj2 (proj1 (capture_failure_replaces_step_failure
             no_eleven_points_no_capture fresh 8 (timeout_error "text=11 Pontos")
             eq_refl) Hc) 9%nat capture_error Hc')).
  - split; [exact Hv|]. split; [exact Hv'|].
    exact (proj1 (proj2 (proj2 (capture_failure_replaces_step_failure
             no_data_no_capture fresh 3
             (timeout_error "h3:has-text('Números Mais Sorteados (Top 10)')")
             eq_refl) Hv) 4%nat capture_error Hv')).
Defined.

(** C3 as stated fails: when the 11-points wait times out and the failure
    screenshot cannot be written, the run ends with the capture failure; the
    timeout is not what the caller receives. *)
Lemma capture_failure_masks_step_failure :
  let r := Comprehensive.main no_eleven_points_no_capture fresh in
  r.1 = Exc capture_error /\
  r.1 <> Exc (timeout_error "text=11 Pontos") /\
  session r.2
    = take 9 Comprehensive.calls ++ [Screenshot "verification/fail_backtest.png" true] /\
  fs r.2 = ∅.
Proof. cbv zeta. repeat split; by vm_compute. Qed.

(** ** Fail-fast sequencing *)

(** C4, as comprehensive_verify.py implements it.  Let call [k] be the
    first to raise, with any exception [e].  Then the run ends with a
    failure and no call written after [k] is made, in this scenario or a
    later one, whatever the handler does.  When [k] lies in one of the three
    [try] blocks, [except Exception] catches [e] and the capture of the
    handler returns, the failure screenshot of that block is written and the
    failure raised is [e] itself, so it has the class and the message of the
    failing step's failure.  When [k] lies outside them (launch, new page,
    navigation, close) no failure screenshot is written and the failure
    raised is [e] itself. *)
Theorem first_failing_step_ends_the_run p w k e :
  first_failure p [] Comprehensive.calls = Some (k, e) ->
  let r := Comprehensive.main p w in
  (exists x, r.1 = Exc x) /\
  (forall j c, (k < j)%nat -> Comprehensive.calls !! j = Some c ->
     c ∉ session r.2) /\
  (exn_is_Exception e = true ->
   all_succeed p (take (S k) Comprehensive.calls) (Comprehensive.handler k) = true ->
   (forall path, Comprehensive.fail_shot k = Some path ->
      fs r.2 !! path = Some (take (S k) Comprehensive.calls)) /\
   r.1 = Exc e /\
   (forall x, r.1 = Exc x ->
      exn_class x = exn_class e /\ exn_message x = exn_message e)) /\
  (Comprehensive.fail_shot k = None ->
   fs r.2 = replay [] (take k Comprehensive.calls) (fs w) /\
   r.1 = Exc e).
Proof.
  intros H r. subst r.
  destruct (comprehensive_failure_shape p w k e H) as (i & x & Hx & Hi).
  split; [by exists x|]. split; [|split].
  - intros j c Hlt Hj. rewrite Hi.
    apply (later_call_not_made_prefix _ _ k j); [apply comprehensive_calls_nodup|done..].
  - intros He Hh.
    destruct (comprehensive_failure p w k e H He Hh) as (Hr & Hs & Hf).
    rewrite Hr, Hf. split; [|split].
    + intros path Hp. unfold Comprehensive.handler. rewrite Hp.
      cbn [replay record]. apply lookup_insert_eq.
    + reflexivity.
    + by intros y [= <-].
  - intros Hn.
    assert (Hnil : Comprehensive.handler k = [])
      by (unfold Comprehensive.handler; by rewrite Hn).
    destruct (exn_is_Exception e) eqn:He.
    + destruct (comprehensive_failure p w k e H He) as (Hr & Hs & Hf);
        [by rewrite Hnil|].
      rewrite Hr, Hf, Hnil. by split.
    + destruct (comprehensive_uncaught p w k e H He) as (Hr & Hs & Hf).
      by rewrite Hr, Hf.
Qed.

(** Game 3000 does not exist: the search wait is the first call to raise. *)
Lemma first_failing_step_witness :
  first_failure no_game_3000 [] Comprehensive.calls
    = Some (12%nat, timeout_error "text=Dezenas do jogo 3000") /\
  (Screenshot "verification/success_search.png" true
     ∉ session ((Comprehensive.main no_game_3000 fresh).2)) /\
  (Close ∉ session ((Comprehensive.main no_game_3000 fresh).2)) /\
  fs (Comprehensive.main no_game_3000 fresh).2 !! "verification/fail_search.png"
    = Some (take 13 Comprehensive.calls) /\
  (Comprehensive.main no_game_3000 fresh).1
    = Exc (timeout_error "text=Dezenas do jogo 3000").
Proof.
  assert (H : first_failure no_game_3000 [] Comprehensive.calls
              = Some (12%nat, timeout_error "text=Dezenas do jogo 3000"))
    by (vm_compute; reflexivity).
  destruct (first_failing_step_ends_the_run no_game_3000 fresh 12
              (timeout_error "text=Dezenas do jogo 3000") H)
    as (_ & Hlater & Hok & _).
  destruct (Hok eq_refl ltac:(vm_compute; reflexivity)) as (Hshot & Hr & _).
  split; [exact H|].
  split; [exact (Hlater 13%nat _ ltac:(lia) eq_refl)|].
  split; [exact (Hlater 14%nat _ ltac:(lia) eq_refl)|].
  split; [exact (Hshot _ eq_refl)|exact Hr].
Defined.

(** C4 as stated fails twice.  When navigation times out, the first failing
    step is outside every [try] and no failure screenshot is written.  When
    the 11-points wait times out and the capture fails, no failure screenshot
    is written either and the failure raised has the class of the capture
    failure, not of the timeout. *)
Lemma first_failure_without_screenshot :
  (let r := Comprehensive.main unreachable fresh in
   first_failure unreachable [] Comprehensive.calls
     = Some (2%nat, timeout_error "goto") /\
   r.1 = Exc (timeout_error "goto") /\
   fs r.2 = ∅) /\
  (let r := Comprehensive.main no_eleven_points_no_capture fresh in
   first_failure no_eleven_points_no_capture [] Comprehensive.calls
     = Some (8%nat, timeout_error "text=11 Pontos") /\
   fs r.2 = ∅ /\
   exists x, r.1 = Exc x /\
     exn_class x <> exn_class (timeout_error "text=11 Pontos")).
Proof.
  cbv zeta. repeat split; try by vm_compute.
  exists capture_error. split; by vm_compute.
Qed.

(** ** The scenarios *)

(** C5, as comprehensive_verify.py implements it.  When every call of the
    script returns, the steps and also the launch, the page creation, the
    two success captures and the close, the run returns normally, it made
    exactly the calls of the script in order, the files are those it found
    plus the two success screenshots, and no failure screenshot was
    touched. *)
Theorem successful_run_writes_only_success_screenshots p w :
  all_succeed p [] Comprehensive.calls = true ->
  let r := Comprehensive.main p w in
  r.1 = Val tt /\
  session r.2 = Comprehensive.calls /\
  fs r.2
  = <["verification/success_search.png" := take 13 Comprehensive.calls]>
      (<["verification/success_backtest.png" := take 9 Comprehensive.calls]> (fs w)) /\
  (forall k path, Comprehensive.fail_shot k = Some path ->
     fs r.2 !! path = fs w !! path) /\
  console r.2
  = console w ++
    [ "Navigating to app..."; "Verifying initial load...";
      "Testing Generate Game and Backtest..."; "Backtest verified.";
      "Testing Search Game..."; "Search verified." ].
Proof.
  intros H r. subst r. rewrite (comprehensive_success p w H).
  cbn [fst snd session console fs]. repeat split.
  intros k path [-> | [-> | ->]]%comprehensive_fail_shot_cases;
    by rewrite !lookup_insert_ne by discriminate.
Qed.

(** A run against an application that answers every call. *)
Lemma successful_run_witness :
  all_succeed healthy [] Comprehensive.calls = true /\
  (Comprehensive.main healthy fresh).1 = Val tt /\
  fs (Comprehensive.main healthy fresh).2
  = <["verification/success_search.png" := take 13 Comprehensive.calls]>
      (<["verification/success_backtest.png" := take 9 Comprehensive.calls]> ∅).
Proof.
  assert (H : all_succeed healthy [] Comprehensive.calls = true)
    by (vm_compute; reflexivity).
  destruct (successful_run_writes_only_success_screenshots healthy fresh H)
    as (Hr & _ & Hf & _).
  split; [exact H|]. split; [exact Hr|exact Hf].
Defined.

(** C5 as stated fails: the success captures sit inside the [try] blocks
    and the close follows them.  With every step passing and only the
    capture of success_backtest.png raising, the run ends with the capture
    error after writing fail_backtest.png and no success screenshot; with
    only the close raising, both success screenshots are written and the run
    still ends with a failure. *)
Lemma passing_steps_without_normal_return :
  (let r := Comprehensive.main no_success_capture fresh in
   all_succeed no_success_capture [] (take 9 Comprehensive.calls) = true /\
   r.1 = Exc capture_error /\
   fs r.2 = <["verification/fail_backtest.png" := take 10 Comprehensive.calls]> ∅) /\
  (let r := Comprehensive.main no_close fresh in
   all_succeed no_close [] (take 14 Comprehensive.calls) = true /\
   r.1 = Exc (mk_exn "Error" "Target closed" true) /\
   r.1 <> Val tt).
Proof. cbv zeta. repeat split; by vm_compute. Qed.

(** C6, as comprehensive_verify.py implements it.  Once the initial load
    succeeded, the generate-and-backtest scenario clicks the Generate Game
    button, then waits for the suggested-game text (10 s), the backtest text
    (10 s) and the 11-points text (5 s), in this order, and when these and
    the capture return it has written success_backtest.png.  When the
    11-points wait raises an exception [e] that [except Exception] catches,
    the run does not write success_backtest.png and attempts one more call,
    the capture of fail_backtest.png, a different file: when that capture
    returns the file is written and the run ends with [e] itself, the
    timeout of that wait; when it raises, nothing is written and the run
    ends with the exception of the capture. *)
Theorem generate_and_backtest_scenario p w :
  all_succeed p [] (take 5 Comprehensive.calls) = true ->
  let r := Comprehensive.main p w in
  (all_succeed p (take 5 Comprehensive.calls)
     [ Click (Selector "button:has-text('Gerar Jogo')");
       WaitForSelector "text=Seu jogo sugerido:" (Some 10000);
       WaitForSelector "text=Probabilidade Histórica (Backtest)" (Some 10000);
       WaitForSelector "text=11 Pontos" (Some 5000);
       Screenshot "verification/success_backtest.png" true ] = true ->
   take 5 (drop 5 (session r.2))
   = [ Click (Selector "button:has-text('Gerar Jogo')");
       WaitForSelector "text=Seu jogo sugerido:" (Some 10000);
       WaitForSelector "text=Probabilidade Histórica (Backtest)" (Some 10000);
       WaitForSelector "text=11 Pontos" (Some 5000);
       Screenshot "verification/success_backtest.png" true ] /\
   fs r.2 !! "verification/success_backtest.png"
   = Some (take 9 Comprehensive.calls))
  /\
  (forall e,
   all_succeed p (take 5 Comprehensive.calls)
     [ Click (Selector "button:has-text('Gerar Jogo')");
       WaitForSelector "text=Seu jogo sugerido:" (Some 10000);
       WaitForSelector "text=Probabilidade Histórica (Backtest)" (Some 10000) ]
     = true ->
   p (take 8 Comprehensive.calls) (WaitForSelector "text=11 Pontos" (Some 5000))
     = Raises e ->
   exn_is_Exception e = true ->
   session r.2
   = take 9 Comprehensive.calls ++ [Screenshot "verification/fail_backtest.png" true] /\
   "verification/fail_backtest.png" <> "verification/success_backtest.png" /\
   fs r.2 !! "verification/success_backtest.png"
   = fs w !! "verification/success_backtest.png" /\
   match p (take 9 Comprehensive.calls)
           (Screenshot "verification/fail_backtest.png" true) with
   | Returns _ =>
       r.1 = Exc e /\
       fs r.2 = <["verification/fail_backtest.png" := take 9 Comprehensive.calls]> (fs w)
   | Raises x =>
       r.1 = Exc x /\ fs r.2 = fs w
   end).
Proof.
  intros H0. cbv zeta. tables H0. split.
  - intros Ha. tables Ha. run_main; (split; [reflexivity | by files]).
  - intros e Hb Hr He. tables Hb. tables Hr.
    destruct (p _ (Screenshot _ _)) as [v|x] eqn:Hc; tables Hc;
      run_main; repeat split; try done; by files.
Qed.

(** The scenario against a healthy application, and against one whose
    backtest shows no line with 11 points. *)
Lemma generate_and_backtest_witness :
  (all_succeed healthy [] (take 10 Comprehensive.calls) = true /\
   take 5 (drop 5 (session (Comprehensive.main healthy fresh).2))
   = take 5 (drop 5 Comprehensive.calls) /\
   fs (Comprehensive.main healthy fresh).2 !! "verification/success_backtest.png"
   = Some (take 9 Comprehensive.calls)) /\
  (no_eleven_points (take 8 Comprehensive.calls)
     (WaitForSelector "text=11 Pontos" (Some 5000))
   = Raises (timeout_error "text=11 Pontos") /\
   (Comprehensive.main no_eleven_points fresh).1
   = Exc (timeout_error "text=11 Pontos") /\
   fs (Comprehensive.main no_eleven_points fresh).2
   = <["verification/fail_backtest.png" := take 9 Comprehensive.calls]> ∅).
Proof.
  split.
  - split; [vm_compute; reflexivity|].
    exact (proj1 (generate_and_backtest_scenario healthy fresh eq_refl) eq_refl).
  - split; [vm_compute; reflexivity|].
    destruct (proj2 (generate_and_backtest_scenario no_eleven_points fresh eq_refl)
                (timeout_error "text=11 Pontos") eq_refl eq_refl eq_refl)
      as (_ & _ & _ & Hr & Hf).
    split; [exact Hr|exact Hf].
Defined.

(** C6 as stated fails.  In comprehensive_verify.py, when the 11-points
    wait times out and fail_backtest.png cannot be written, no failure
    screenshot is written and the failure raised is the one of the capture,
    not the timeout naming the condition.  In verify.py, also cited, the
    scenario has no 11-points wait at all and its backtest wait carries no
    timeout: against a healthy application it makes neither call. *)
Lemma eleven_points_timeout_without_screenshot :
  (let r := Comprehensive.main no_eleven_points_no_capture fresh in
   all_succeed no_eleven_points_no_capture [] (take 8 Comprehensive.calls) = true /\
   no_eleven_points_no_capture (take 8 Comprehensive.calls)
     (WaitForSelector "text=11 Pontos" (Some 5000))
   = Raises (timeout_error "text=11 Pontos") /\
   fs r.2 !! "verification/fail_backtest.png" = None /\
   r.1 = Exc capture_error /\
   r.1 <> Exc (timeout_error "text=11 Pontos")) /\
  (let r := Verify.main healthy fresh in
   r.1 = Val tt /\
   (WaitForSelector "text=11 Pontos" (Some 5000) ∉ session r.2) /\
   (WaitForSelector "text=Probabilidade Histórica (Backtest)" (Some 10000)
      ∉ session r.2) /\
   (WaitForSelector "text=Probabilidade Histórica (Backtest)" None ∈ session r.2)).
Proof.
  cbv zeta. repeat split; try by vm_compute.
  - apply (bool_decide_unpack _). by vm_compute.
  - apply (bool_decide_unpack _). by vm_compute.
  - apply (bool_decide_unpack _). by vm_compute.
Qed.

(** C7, as comprehensive_verify.py implements it.  Once the two scenarios
    before it succeeded, the search scenario fills the game-number input
    with "3000", clicks the Search Game button and waits for the text
    "Dezenas do jogo 3000" with a timeout of 20 s, and when these and the
    capture return it has written success_search.png.  When that wait raises
    an exception [e] that [except Exception] catches, as its timeout is, the
    run does not write success_search.png and attempts one more call, the
    capture of fail_search.png: when that capture returns the file is
    written and the run ends with [e] itself; when it raises, no failure
    screenshot is written and the run ends with the exception of the
    capture. *)
Theorem search_by_number_scenario p w :
  all_succeed p [] (take 10 Comprehensive.calls) = true ->
  let r := Comprehensive.main p w in
  (all_succeed p (take 10 Comprehensive.calls)
     [ Fill (Selector "input[placeholder*='Digite o número do jogo']") "3000";
       Click (Selector "button:has-text('Buscar Jogo')");
       WaitForSelector "text=Dezenas do jogo 3000" (Some 20000);
       Screenshot "verification/success_search.png" true ] = true ->
   take 4 (drop 10 (session r.2))
   = [ Fill (Selector "input[placeholder*='Digite o número do jogo']") "3000";
       Click (Selector "button:has-text('Buscar Jogo')");
       WaitForSelector "text=Dezenas do jogo 3000" (Some 20000);
       Screenshot "verification/success_search.png" true ] /\
   fs r.2 !! "verification/success_search.png"
   = Some (take 13 Comprehensive.calls))
  /\
  (forall e,
   all_succeed p (take 10 Comprehensive.calls)
     [ Fill (Selector "input[placeholder*='Digite o número do jogo']") "3000";
       Click (Selector "button:has-text('Buscar Jogo')") ] = true ->
   p (take 12 Comprehensive.calls)
     (WaitForSelector "text=Dezenas do jogo 3000" (Some 20000)) = Raises e ->
   exn_is_Exception e = true ->
   session r.2
   = take 13 Comprehensive.calls ++ [Screenshot "verification/fail_search.png" true] /\
   fs r.2 !! "verification/success_search.png"
   = fs w !! "verification/success_search.png" /\
   match p (take 13 Comprehensive.calls)
           (Screenshot "verification/fail_search.png" true) with
   | Returns _ =>
       r.1 = Exc e /\
       fs r.2
       = <["verification/fail_search.png" := take 13 Comprehensive.calls]>
           (<["verification/success_backtest.png" := take 9 Comprehensive.calls]> (fs w))
   | Raises x =>
       r.1 = Exc x /\
       fs r.2
       = <["verification/success_backtest.png" := take 9 Comprehensive.calls]> (fs w)
   end).
Proof.
  intros H0. cbv zeta. tables H0. split.
  - intros Ha. unfold Comprehensive.game_number_input in *. tables Ha.
    run_main; (split; [reflexivity | by files]).
  - intros e Hb Hr He. unfold Comprehensive.game_number_input in *.
    tables Hb. tables Hr.
    destruct (p _ (Screenshot _ _)) as [v|x] eqn:Hc; tables Hc;
      run_main; repeat split; try done; by files.
Qed.

(** The scenario against a healthy application, and against one in which
    game 3000 does not exist. *)
Lemma search_by_number_witness :
  (all_succeed healthy [] (take 14 Comprehensive.calls) = true /\
   take 4 (drop 10 (session (Comprehensive.main healthy fresh).2))
   = take 4 (drop 10 Comprehensive.calls) /\
   fs (Comprehensive.main healthy fresh).2 !! "verification/success_search.png"
   = Some (take 13 Comprehensive.calls)) /\
  (no_game_3000 (take 12 Comprehensive.calls)
     (WaitForSelector "text=Dezenas do jogo 3000" (Some 20000))
   = Raises (timeout_error "text=Dezenas do jogo 3000") /\
   (Comprehensive.main no_game_3000 fresh).1
   = Exc (timeout_error "text=Dezenas do jogo 3000") /\
   fs (Comprehensive.main no_game_3000 fresh).2 !! "verification/success_search.png"
   = None).
Proof.
  split.
  - split; [vm_compute; reflexivity|].
    exact (proj1 (search_by_number_scenario healthy fresh eq_refl) eq_refl).
  - split; [vm_compute; reflexivity|].
    destruct (proj2 (search_by_number_scenario no_game_3000 fresh eq_refl)
                (timeout_error "text=Dezenas do jogo 3000")
                eq_refl eq_refl eq_refl)
      as (_ & Hf & Hr & _).
    split; [exact Hr|exact Hf].
Defined.

(** C7 as stated fails.  In comprehensive_verify.py, when game 3000 does not
    exist and fail_search.png cannot be written, the run ends with the
    failure of the capture, not with the timeout of the wait, and writes no
    failure screenshot.  In verify_refactor.py, also cited, the search fills
    "2500", not "3000", and expects nothing: where the draws of the game
    never appear it makes no wait for them and returns normally. *)
Lemma missing_game_without_condition_timeout :
  (let r := Comprehensive.main no_game_3000_no_capture fresh in
   no_game_3000_no_capture (take 12 Comprehensive.calls)
     (WaitForSelector "text=Dezenas do jogo 3000" (Some 20000))
   = Raises (timeout_error "text=Dezenas do jogo 3000") /\
   r.1 = Exc capture_error /\
   r.1 <> Exc (timeout_error "text=Dezenas do jogo 3000") /\
   fs r.2 !! "verification/fail_search.png" = None) /\
  (let r := Refactor.main true no_game_3000 fresh in
   r.1 = Val tt /\
   session r.2 = Refactor.calls /\
   (Fill (Locator "#gameNumberInput") "2500" ∈ session r.2)).
Proof.
  cbv zeta. repeat split; try by vm_compute.
  apply (bool_decide_unpack _). by vm_compute.
Qed.

(** ** Independence of runs and of artifacts *)

(** C8.  [run] keeps nothing between invocations: it starts a new session
    and reads neither the console nor the files.  So when the script is run
    twice in succession against a browser and application that answer the
    second run as they answered the first, the second run has the outcome
    of the first, makes the same calls, prints the same lines again and
    leaves the files as the first run left them. *)
Theorem rerun_gives_same_outcomes p w :
  let first := Comprehensive.main p w in
  let second := Comprehensive.main p first.2 in
  second.1 = first.1 /\
  session second.2 = session first.2 /\
  fs second.2 = fs first.2 /\
  console second.2
  = console first.2 ++ drop (length (console w)) (console first.2) /\
  driver_running second.2 = driver_running first.2.
Proof.
  cbv zeta. unfold Comprehensive.main.
  rewrite (with_sync_playwright_frame p _ w (framed_comprehensive_run p)).
  set (d := with_sync_playwright p Comprehensive.run fresh).
  cbn [fst snd].
  rewrite (with_sync_playwright_frame p _ (graft w d.2) (framed_comprehensive_run p)).
  fold d. unfold graft. cbn [fst snd session console fs driver_running].
  repeat split.
  - by rewrite (assoc_L (∪)), (idemp_L (∪)).
  - by rewrite drop_app_length.
Qed.

(** C9.  In comprehensive_verify.py, when the generate-and-backtest
    scenario succeeded and a later call is the first to raise (a step of the
    search scenario, its success capture, or the close), the run fails and
    success_backtest.png still holds the page captured at the end of the
    backtest scenario: the handler of the search scenario writes only
    fail_search.png.  This holds whatever the failure is and whether or not
    the failure capture works. *)
Theorem earlier_success_screenshot_is_kept p w k e :
  first_failure p [] Comprehensive.calls = Some (k, e) ->
  (10 <= k)%nat ->
  let r := Comprehensive.main p w in
  (exists x, r.1 = Exc x) /\
  fs r.2 !! "verification/success_backtest.png"
  = Some (take 9 Comprehensive.calls) /\
  (forall path, path <> "verification/success_backtest.png" ->
     path <> "verification/success_search.png" ->
     path <> "verification/fail_search.png" ->
     fs r.2 !! path = fs w !! path).
Proof.
  intros H Hk. cbv zeta. tables H.
  run_main; try (exfalso; lia);
    (split; [by eexists | split; [by files |]]);
    intros path H1 H2 H3; unfold record; by rewrite ?lookup_insert_ne.
Qed.

(** The backtest succeeds and game 3000 does not exist. *)
Lemma earlier_success_screenshot_witness :
  first_failure no_game_3000 [] Comprehensive.calls
    = Some (12%nat, timeout_error "text=Dezenas do jogo 3000") /\
  fs (Comprehensive.main no_game_3000 fresh).2 !! "verification/success_backtest.png"
    = Some (take 9 Comprehensive.calls).
Proof.
  assert (H : first_failure no_game_3000 [] Comprehensive.calls
              = Some (12%nat, timeout_error "text=Dezenas do jogo 3000"))
    by (vm_compute; reflexivity).
  split; [exact H|].
  exact (proj1 (proj2 (earlier_success_screenshot_is_kept no_game_3000 fresh 12
                         (timeout_error "text=Dezenas do jogo 3000") H
                         ltac:(lia)))).
Defined.

(** C10, as verify.py implements it.  When the wait for the suggested game
    raises an exception [e] that [except Exception] catches, the handler
    asks whether the error banner is visible.  When that check returns, its
    answer [b] decides one thing only, whether "Error message found!" is
    printed: for both answers the run then attempts the capture of
    verification/error_suggestion_2.png, and the calls made, the files and
    the failure raised do not mention [b]; the capture returning, the file
    is written and [e] itself re-raised, and the capture raising, nothing is
    written and its exception is raised.  When the check itself raises, the
    run ends with the exception of the check: no capture is attempted and
    nothing is written. *)
Theorem banner_check_only_prints p w e :
  all_succeed p [] (take 5 Verify.calls) = true ->
  p (take 5 Verify.calls) (WaitForSelector "text=Seu jogo sugerido:" (Some 10000))
    = Raises e ->
  exn_is_Exception e = true ->
  let r := Verify.main p w in
  let seen := take 6 Verify.calls ++ [IsVisible ".bg-red-100"] in
  match p (take 6 Verify.calls) (IsVisible ".bg-red-100") with
  | Returns b =>
      session r.2 = seen ++ [Screenshot "verification/error_suggestion_2.png" true] /\
      console r.2
      = console w ++
        [ "Waiting for data to load..."; "Data loaded. Clicking button...";
          "Waiting for suggestion...";
          "Timeout waiting for suggestion. Checking if error message appeared..." ] ++
        (if b then ["Error message found!"] else []) ++
        [ "Taking screenshot..." ] /\
      match p seen (Screenshot "verification/error_suggestion_2.png" true) with
      | Returns _ =>
          r.1 = Exc e /\
          fs r.2 = <["verification/error_suggestion_2.png" := seen]> (fs w)
      | Raises x =>
          r.1 = Exc x /\ fs r.2 = fs w
      end
  | Raises y =>
      session r.2 = seen /\
      console r.2
      = console w ++
        [ "Waiting for data to load..."; "Data loaded. Clicking button...";
          "Waiting for suggestion...";
          "Timeout waiting for suggestion. Checking if error message appeared..." ] /\
      r.1 = Exc y /\
      fs r.2 = fs w
  end.
Proof.
  intros H0 Hw He. cbv zeta. tables H0. tables Hw.
  destruct (p _ (IsVisible _)) as [b|y] eqn:Hb; tables Hb.
  - destruct (p _ (Screenshot _ _)) as [v|x] eqn:Hc; tables Hc;
      run_main; rewrite <- ?app_assoc; by repeat split.
  - run_main; rewrite <- ?app_assoc; by repeat split.
Qed.

(** No suggestion appears, once with the banner shown and once without:
    the two runs differ in one printed line. *)
Lemma banner_check_witness :
  (console (Verify.main (no_suggestion true) fresh).2
   = [ "Waiting for data to load..."; "Data loaded. Clicking button...";
       "Waiting for suggestion...";
       "Timeout waiting for suggestion. Checking if error message appeared...";
       "Error message found!"; "Taking screenshot..." ] /\
   console (Verify.main (no_suggestion false) fresh).2
   = [ "Waiting for data to load..."; "Data loaded. Clicking button...";
       "Waiting for suggestion...";
       "Timeout waiting for suggestion. Checking if error message appeared...";
       "Taking screenshot..." ]) /\
  ((Verify.main (no_suggestion true) fresh).1
   = Exc (timeout_error "text=Seu jogo sugerido:") /\
   (Verify.main (no_suggestion false) fresh).1
   = Exc (timeout_error "text=Seu jogo sugerido:")) /\
  fs (Verify.main (no_suggestion true) fresh).2
  = fs (Verify.main (no_suggestion false) fresh).2.
Proof.
  destruct (banner_check_only_prints (no_suggestion true) fresh
              (timeout_error "text=Seu jogo sugerido:")
              eq_refl eq_refl eq_refl) as (_ & Hc1 & Hr1 & Hf1).
  destruct (banner_check_only_prints (no_suggestion false) fresh
              (timeout_error "text=Seu jogo sugerido:")
              eq_refl eq_refl eq_refl) as (_ & Hc2 & Hr2 & Hf2).
  split; [split; [exact Hc1|exact Hc2]|].
  split; [split; [exact Hr1|exact Hr2]|].
  exact (eq_trans Hf1 (eq_sym Hf2)).
Defined.

(** C10 as stated fails.  When the suggestion wait times out and
    error_suggestion_2.png cannot be written, the file is not written and
    the failure raised is the one of the capture, banner visible or not.
    When the page is gone, the banner check itself raises: the run ends with
    its exception after seven calls, without attempting the capture. *)
Lemma suggestion_failure_without_screenshot :
  (forall banner,
   let r := Verify.main (no_suggestion_no_capture banner) fresh in
   no_suggestion_no_capture banner (take 5 Verify.calls)
     (WaitForSelector "text=Seu jogo sugerido:" (Some 10000))
   = Raises (timeout_error "text=Seu jogo sugerido:") /\
   fs r.2 !! "verification/error_suggestion_2.png" = None /\
   r.1 = Exc capture_error /\
   r.1 <> Exc (timeout_error "text=Seu jogo sugerido:")) /\
  (let r := Verify.main page_gone fresh in
   session r.2 = take 6 Verify.calls ++ [IsVisible ".bg-red-100"] /\
   fs r.2 = ∅ /\
   (Screenshot "verification/error_suggestion_2.png" true ∉ session r.2)).
Proof.
  cbv zeta. split.
  - intros [|]; repeat split; by vm_compute.
  - repeat split; try by vm_compute.
    apply (bool_decide_unpack _). by vm_compute.
Qed.

(** ** Further properties of the three scripts *)

(** *** What a run leaves alone *)

Lemma keeps_to_ret {A} paths (a : A) : keeps_to paths (ret a).
Proof. intros w. by repeat split. Qed.

Lemma keeps_to_raise {A} paths e : keeps_to paths (@raise A e).
Proof. intros w. by repeat split. Qed.

Lemma keeps_to_print paths s : keeps_to paths (print s).
Proof.
  intros w. unfold print. cbn [fst snd console fs]. repeat split; [|done..].
  by apply prefix_app_r.
Qed.

Lemma keeps_to_invoke paths p c :
  writes_within paths c -> keeps_to paths (invoke p c).
Proof.
  intros Hc w. unfold invoke.
  destruct (p (session w) c) as [v|e]; cbn [fst snd console fs]; [|by repeat split].
  repeat split; [done| |].
  - intros path Hp. destruct c; cbn [record]; try done.
    by apply lookup_insert_is_Some'; right.
  - intros path Hp. destruct c; cbn [record]; try done.
    apply lookup_insert_ne. intros ->. by apply Hp.
Qed.

(** Running [m2] from the world [m1] left keeps to the paths when both do. *)
Lemma keeps_to_step (paths : list string) (w w1 w2 : world) :
  (console w `prefix_of` console w1 /\
   (forall path, is_Some (fs w !! path) -> is_Some (fs w1 !! path)) /\
   (forall path, path ∉ paths -> fs w1 !! path = fs w !! path)) ->
  (console w1 `prefix_of` console w2 /\
   (forall path, is_Some (fs w1 !! path) -> is_Some (fs w2 !! path)) /\
   (forall path, path ∉ paths -> fs w2 !! path = fs w1 !! path)) ->
  console w `prefix_of` console w2 /\
  (forall path, is_Some (fs w !! path) -> is_Some (fs w2 !! path)) /\
  (forall path, path ∉ paths -> fs w2 !! path = fs w !! path).
Proof.
  intros (Hc1 & Hs1 & Hf1) (Hc2 & Hs2 & Hf2). repeat split.
  - by etrans.
  - intros path Hp. by apply Hs2, Hs1.
  - intros path Hp. by rewrite Hf2, Hf1.
Qed.

Lemma keeps_to_bind {A B} paths (m : M A) (k : A -> M B) :
  keeps_to paths m -> (forall a, keeps_to paths (k a)) ->
  keeps_to paths (bind m k).
Proof.
  intros Hm Hk w. unfold bind. specialize (Hm w).
  destruct (m w) as [[a|e] w1]; cbn [fst snd] in *; [|done].
  by apply (keeps_to_step paths w w1), Hk.
Qed.

Lemma keeps_to_try_except {A} paths (body : M A) (handler : exn -> M A) :
  keeps_to paths body -> (forall e, keeps_to paths (handler e)) ->
  keeps_to paths (try_except body handler).
Proof.
  intros Hb Hh w. unfold try_except. specialize (Hb w).
  destruct (body w) as [[a|e] w1]; cbn [fst snd] in *; [done|].
  destruct (exn_is_Exception e); [|done].
  by apply (keeps_to_step paths w w1), Hh.
Qed.

Lemma keeps_to_try_finally {A} paths (body : M A) (cleanup : M unit) :
  keeps_to paths body -> keeps_to paths cleanup ->
  keeps_to paths (try_finally body cleanup).
Proof.
  intros Hb Hc w. unfold try_finally. specialize (Hb w).
  destruct (body w) as [r w1]; cbn [fst snd] in *.
  specialize (Hc w1).
  destruct (cleanup w1) as [[[]|e] w2]; cbn [fst snd] in *;
    by apply (keeps_to_step paths w w1).
Qed.

Lemma keeps_to_if {A} paths (b : bool) (m1 m2 : M A) :
  keeps_to paths m1 -> keeps_to paths m2 ->
  keeps_to paths (if b then m1 else m2).
Proof. by destruct b. Qed.

Lemma keeps_to_with_sync_playwright {A} paths p (body : browser -> M A) :
  keeps_to paths (body p) -> keeps_to paths (with_sync_playwright p body).
Proof.
  intros Hb w. unfold with_sync_playwright.
  specialize (Hb (mk_world [] (console w) (fs w) true)).
  by destruct (body p _) as [r w1].
Qed.

Ltac keeps_to_script :=
  repeat first
    [ apply keeps_to_ret | apply keeps_to_raise | apply keeps_to_print
    | apply keeps_to_if
    | apply keeps_to_invoke; unfold writes_within;
      first [ exact I | apply (bool_decide_unpack _); by vm_compute ]
    | apply keeps_to_bind; [| intros ?]
    | apply keeps_to_try_except; [| intros ?]
    | apply keeps_to_try_finally ].

(** X1.  Whatever the browser does and whatever the artifacts directory
    holds, each script only adds lines to the console, deletes no file, and
    leaves every file untouched except the screenshots of its own: three
    paths for verify.py, five for comprehensive_verify.py, two for
    verify_refactor.py (which, imported rather than run, does nothing). *)
Theorem scripts_keep_to_their_artifacts p :
  keeps_to verify_artifacts (Verify.main p) /\
  keeps_to comprehensive_artifacts (Comprehensive.main p) /\
  (forall name_is_main, keeps_to refactor_artifacts (Refactor.main name_is_main p)).
Proof.
  split; [|split].
  - apply keeps_to_with_sync_playwright. unfold Verify.run. keeps_to_script.
  - apply keeps_to_with_sync_playwright. unfold Comprehensive.run. keeps_to_script.
  - intros [|]; [|apply keeps_to_ret].
    apply keeps_to_with_sync_playwright.
    unfold Refactor.main_body, Refactor.verify_game_search. keeps_to_script.
Qed.

(** *** verify.py *)

(** X2.  When every call of verify.py returns, the run returns normally
    after the nine calls of the script in order, prints its four progress
    lines, and writes one file, verification/screenshot.png, holding the
    page as the backtest wait left it. *)
Theorem verify_successful_run p w :
  all_succeed p [] Verify.calls = true ->
  Verify.main p w =
    (Val tt,
     mk_world Verify.calls
       (console w ++
        [ "Waiting for data to load..."; "Data loaded. Clicking button...";
          "Waiting for suggestion..."; "Success. Taking screenshot..." ])
       (<["verification/screenshot.png" := take 7 Verify.calls]> (fs w))
       false).
Proof.
  intros H. tables H. run_main.
  unfold record. by rewrite <- !app_assoc.
Qed.

(** verify.py against an application that answers every call. *)
Lemma verify_successful_run_witness :
  all_succeed healthy [] Verify.calls = true /\
  (Verify.main healthy fresh).1 = Val tt /\
  fs (Verify.main healthy fresh).2
  = <["verification/screenshot.png" := take 7 Verify.calls]> ∅.
Proof.
  assert (H : all_succeed healthy [] Verify.calls = true)
    by (vm_compute; reflexivity).
  split; [exact H|].
  pose proof (verify_successful_run healthy fresh H) as E.
  split; [exact (f_equal fst E) | exact (f_equal (fun r => fs r.2) E)].
Defined.

(** *** Exceptions that [except Exception] does not catch *)

(** X3.  The handlers are [except Exception] blocks.  When the first call
    to raise raises an exception whose class does not derive from
    [Exception] (Ctrl-C during a wait), no handler runs, inside a [try] or
    not: the run makes no further call, writes no failure screenshot, and
    ends with that exception. *)
Theorem uncaught_exception_skips_the_handler p w k e :
  exn_is_Exception e = false ->
  (first_failure p [] Comprehensive.calls = Some (k, e) ->
   let r := Comprehensive.main p w in
   r.1 = Exc e /\
   session r.2 = take (S k) Comprehensive.calls /\
   fs r.2 = replay [] (take k Comprehensive.calls) (fs w))
  /\
  (first_failure p [] Verify.calls = Some (k, e) ->
   let r := Verify.main p w in
   r.1 = Exc e /\
   session r.2 = take (S k) Verify.calls /\
   fs r.2 = replay [] (take k Verify.calls) (fs w)).
Proof.
  intros He. split; intros H; cbv zeta; tables H; run_main; by repeat split.
Qed.

(** Ctrl-C during the 11-points wait, and during the suggestion wait. *)
Lemma uncaught_exception_witness :
  (first_failure interrupted_backtest [] Comprehensive.calls
     = Some (8%nat, keyboard_interrupt) /\
   (Comprehensive.main interrupted_backtest fresh).1 = Exc keyboard_interrupt /\
   session (Comprehensive.main interrupted_backtest fresh).2
     = take 9 Comprehensive.calls) /\
  (first_failure interrupted_suggestion [] Verify.calls
     = Some (5%nat, keyboard_interrupt) /\
   (Verify.main interrupted_suggestion fresh).1 = Exc keyboard_interrupt /\
   session (Verify.main interrupted_suggestion fresh).2 = take 6 Verify.calls).
Proof.
  assert (Hc : first_failure interrupted_backtest [] Comprehensive.calls
               = Some (8%nat, keyboard_interrupt)) by (vm_compute; reflexivity).
  assert (Hv : first_failure interrupted_suggestion [] Verify.calls
               = Some (5%nat, keyboard_interrupt)) by (vm_compute; reflexivity).
  split.
  - destruct (proj1 (uncaught_exception_skips_the_handler
                       interrupted_backtest fresh 8 keyboard_interrupt eq_refl) Hc)
      as (Hr & Hs & _).
    split; [exact Hc|]. split; [exact Hr|exact Hs].
  - destruct (proj2 (uncaught_exception_skips_the_handler
                       interrupted_suggestion fresh 5 keyboard_interrupt eq_refl) Hv)
      as (Hr & Hs & _).
    split; [exact Hv|]. split; [exact Hr|exact Hs].
Defined.

(** *** No failure is swallowed, no success is reported early *)

(** Decide a membership in a list that is known after a run. *)
Ltac mem_iff :=
  split;
  [ let HP := fresh "HP" in
    intros HP;
    first [ reflexivity
          | exfalso; apply (bool_decide_pack _) in HP; vm_compute in HP; exact HP ]
  | let Hb := fresh "Hb" in
    intros Hb;
    first [ discriminate Hb
          | apply (bool_decide_unpack _); vm_compute; exact I ] ].

(** The lines a run printed, after what the console held before. *)
Ltac printed :=
  rewrite <- ?app_assoc; cbn [app]; rewrite ?drop_app_length, ?drop_all.

(** X4.  verify.py and comprehensive_verify.py return normally exactly when
    every one of their browser calls returned: whichever call raises, inside
    a [try] or not, caught by a handler or not, the run ends with a failure. *)
Theorem run_returns_iff_every_call_returned p w :
  ((Verify.main p w).1 = Val tt <-> all_succeed p [] Verify.calls = true) /\
  ((Comprehensive.main p w).1 = Val tt
   <-> all_succeed p [] Comprehensive.calls = true).
Proof.
  split.
  - destruct (all_succeed p [] Verify.calls) eqn:H; tables H; run_main;
      split; intros; (done || discriminate).
  - destruct (all_succeed p [] Comprehensive.calls) eqn:H; tables H; run_main;
      split; intros; (done || discriminate).
Qed.

(** X5.  comprehensive_verify.py prints "Backtest verified." exactly when
    the ten calls up to the capture of success_backtest.png returned, and
    "Search verified." exactly when the fourteen calls up to the capture of
    success_search.png returned: a scenario is never reported verified
    unless all its steps passed and its screenshot was written. *)
Theorem scenario_reported_verified_iff_it_passed p w :
  let out := drop (length (console w)) (console (Comprehensive.main p w).2) in
  ("Backtest verified." ∈ out
   <-> all_succeed p [] (take 10 Comprehensive.calls) = true) /\
  ("Search verified." ∈ out
   <-> all_succeed p [] (take 14 Comprehensive.calls) = true).
Proof.
  cbv zeta.
  destruct (all_succeed p [] (take 10 Comprehensive.calls)) eqn:H1;
    destruct (all_succeed p [] (take 14 Comprehensive.calls)) eqn:H2;
    tables H1; tables H2; run_main; printed; split; mem_iff.
Qed.

(** X6.  verify.py prints "Success. Taking screenshot..." exactly when the
    seven calls before the final capture returned.  The line comes before
    the capture and the close, so a run can print it and still fail. *)
Theorem verify_success_line_precedes_capture p w :
  let out := drop (length (console w)) (console (Verify.main p w).2) in
  ("Success. Taking screenshot..." ∈ out
   <-> all_succeed p [] (take 7 Verify.calls) = true) /\
  (all_succeed p [] (take 7 Verify.calls) = true ->
   forall e, p (take 7 Verify.calls) (Screenshot "verification/screenshot.png" true)
             = Raises e ->
   (Verify.main p w).1 = Exc e /\
   "Success. Taking screenshot..." ∈ out /\
   fs (Verify.main p w).2 = fs w).
Proof.
  cbv zeta. split.
  - destruct (all_succeed p [] (take 7 Verify.calls)) eqn:H; tables H;
      run_main; printed; mem_iff.
  - intros H e He. tables H. tables He. run_main. printed.
    repeat split. apply (bool_decide_unpack _). by vm_compute.
Qed.

(** The final capture of verify.py fails. *)
Lemma verify_success_line_witness :
  let p := scripted [(Screenshot "verification/screenshot.png" true, capture_error)]
                    false in
  all_succeed p [] (take 7 Verify.calls) = true /\
  (Verify.main p fresh).1 = Exc capture_error /\
  "Success. Taking screenshot..." ∈ console (Verify.main p fresh).2.
Proof.
  cbv zeta.
  destruct (proj2 (verify_success_line_precedes_capture
                     (scripted [(Screenshot "verification/screenshot.png" true,
                                 capture_error)] false) fresh)
              eq_refl capture_error eq_refl) as (Hr & Hin & _).
  split; [vm_compute; reflexivity|]. split; [exact Hr|exact Hin].
Defined.

(** X7.  In verify.py and comprehensive_verify.py [browser.close()] is
    called at most once, and it is called exactly when every call written
    before it returned; a run that fails earlier never calls it. *)
Theorem close_is_called_iff_all_before_returned p w :
  closes (session (Verify.main p w).2)
  = (if all_succeed p [] (take 8 Verify.calls) then 1 else 0)%nat /\
  closes (session (Comprehensive.main p w).2)
  = (if all_succeed p [] (take 14 Comprehensive.calls) then 1 else 0)%nat.
Proof. split; [apply verify_closes | apply comprehensive_closes]. Qed.

(** X8.  In comprehensive_verify.py a failure screenshot is evidence of
    where the run failed: if a run changed the file at the failure path of a
    [try] block, then the first call to raise was a call of that block, its
    exception was one [except Exception] catches, the run ended with that
    exception, and the file holds the page as the failing call left it. *)
Theorem failure_screenshot_names_the_failed_phase p w k' path :
  Comprehensive.fail_shot k' = Some path ->
  fs (Comprehensive.main p w).2 !! path <> fs w !! path ->
  exists k e,
    first_failure p [] Comprehensive.calls = Some (k, e) /\
    Comprehensive.fail_shot k = Some path /\
    exn_is_Exception e = true /\
    (Comprehensive.main p w).1 = Exc e /\
    fs (Comprehensive.main p w).2 !! path = Some (take (S k) Comprehensive.calls).
Proof.
  intros Hs. apply comprehensive_fail_shot_cases in Hs.
  destruct (first_failure p [] Comprehensive.calls) as [[k e]|] eqn:H.
  - tables H.
    run_main; intros Hne; destruct Hs as [-> | [-> | ->]];
      unfold record in *;
      rewrite ?lookup_insert_eq, ?lookup_insert_ne in Hne by discriminate;
      try done;
      (eexists _, _; split; [reflexivity|];
       rewrite ?lookup_insert_eq, ?lookup_insert_ne by discriminate;
       by repeat split).
  - tables H.
    run_main; intros Hne; destruct Hs as [-> | [-> | ->]];
      unfold record in *;
      by rewrite ?lookup_insert_eq, ?lookup_insert_ne in Hne by discriminate.
Qed.

(** fail_backtest.png appears after the 11-points wait timed out. *)
Lemma failure_screenshot_witness :
  fs (Comprehensive.main no_eleven_points fresh).2 !! "verification/fail_backtest.png"
    <> fs fresh !! "verification/fail_backtest.png" /\
  exists k e,
    first_failure no_eleven_points [] Comprehensive.calls = Some (k, e) /\
    Comprehensive.fail_shot k = Some "verification/fail_backtest.png" /\
    exn_is_Exception e = true /\
    (Comprehensive.main no_eleven_points fresh).1 = Exc e /\
    fs (Comprehensive.main no_eleven_points fresh).2 !! "verification/fail_backtest.png"
    = Some (take (S k) Comprehensive.calls).
Proof.
  assert (Hne : fs (Comprehensive.main no_eleven_points fresh).2
                  !! "verification/fail_backtest.png"
                <> fs fresh !! "verification/fail_backtest.png")
    by (vm_compute; discriminate).
  split; [exact Hne|].
  exact (failure_screenshot_names_the_failed_phase no_eleven_points fresh 8
           "verification/fail_backtest.png" eq_refl Hne).
Defined.

(** *** verify_refactor.py *)

(** Unfold the call table of verify_refactor.py in a hypothesis. *)
Ltac refactor_table H :=
  unfold Refactor.calls in H; cbn [take drop app length] in H.

(** Evaluate the program of verify_refactor.py in the goal. *)
Ltac run_refactor :=
  unfold Refactor.main;
  rewrite eval_with_sync_playwright; cbv zeta;
  lazymatch goal with
  | |- context [Refactor.main_body ?p ?w0] =>
      let x := fresh "x" in
      let E := fresh "E" in
      remember (Refactor.main_body p w0) as x eqn:E;
      unfold Refactor.main_body, Refactor.verify_game_search in E;
      exec_in E; subst x;
      cbn [fst snd session console fs driver_running]
  end.

(** X9.  When every call of verify_refactor.py returns, the program returns
    normally after its ten calls in order, prints nothing, and writes two
    files: verification_input.png holds the page right after "2500" was
    typed, before the Search Game button is clicked, and
    verification_search.png the page after the click and the 1 s pause. *)
Theorem refactor_successful_run p w :
  all_succeed p [] Refactor.calls = true ->
  Refactor.main true p w =
    (Val tt,
     mk_world Refactor.calls (console w)
       (<["verification/verification_search.png" := take 8 Refactor.calls]>
          (<["verification/verification_input.png" := take 5 Refactor.calls]>
             (fs w)))
       false).
Proof.
  intros H. refactor_table H. run_refactor. reflexivity.
Qed.

(** verify_refactor.py against an application that answers every call. *)
Lemma refactor_successful_run_witness :
  all_succeed healthy [] Refactor.calls = true /\
  (Refactor.main true healthy fresh).1 = Val tt /\
  session (Refactor.main true healthy fresh).2 = Refactor.calls.
Proof.
  assert (H : all_succeed healthy [] Refactor.calls = true)
    by (vm_compute; reflexivity).
  split; [exact H|].
  pose proof (refactor_successful_run healthy fresh H) as E.
  split; [exact (f_equal fst E) | exact (f_equal (fun r => session r.2) E)].
Defined.

(** X10.  [verify_game_search] runs inside [try ... finally].  When one of
    its seven calls is the first to raise, with any exception at all, no
    later call of the function is made, [browser.close()] is called next and
    exactly once, whether it returns or raises, and no diagnostic screenshot
    is taken: the files written are those the calls before the failure
    wrote.  The close returning, the program ends with the exception of the
    failing call; the close raising, with the exception of the close. *)
Theorem refactor_failure_closes_then_reraises p w k e :
  first_failure p [] (take 9 Refactor.calls) = Some (k, e) ->
  (2 <= k)%nat ->
  let r := Refactor.main true p w in
  session r.2 = take (S k) Refactor.calls ++ [Close] /\
  closes (session r.2) = 1%nat /\
  fs r.2 = replay [] (take k Refactor.calls) (fs w) /\
  match p (take (S k) Refactor.calls) Close with
  | Returns _ => r.1 = Exc e
  | Raises x => r.1 = Exc x
  end.
Proof.
  intros H Hk. cbv zeta. refactor_table H.
  run_refactor; try (exfalso; lia);
    cbn [take Refactor.calls];
    match goal with
    | Hr : _ _ Close = _ |- _ => unfold Refactor.calls; cbn [take]; rewrite Hr
    end;
    by repeat split.
Qed.

(** The page has no Search Game button: the click is the first to raise. *)
Lemma refactor_failure_witness :
  first_failure no_search_button [] (take 9 Refactor.calls)
    = Some (6%nat, timeout_error "get_by_role('button', name='Buscar Jogo')") /\
  (Refactor.main true no_search_button fresh).1
    = Exc (timeout_error "get_by_role('button', name='Buscar Jogo')") /\
  session (Refactor.main true no_search_button fresh).2
    = take 7 Refactor.calls ++ [Close] /\
  fs (Refactor.main true no_search_button fresh).2
    = <["verification/verification_input.png" := take 5 Refactor.calls]> ∅.
Proof.
  assert (H : first_failure no_search_button [] (take 9 Refactor.calls)
              = Some (6%nat, timeout_error "get_by_role('button', name='Buscar Jogo')"))
    by (vm_compute; reflexivity).
  destruct (refactor_failure_closes_then_reraises no_search_button fresh 6
              (timeout_error "get_by_role('button', name='Buscar Jogo')")
              H ltac:(lia)) as (Hs & _ & Hf & Hr).
  split; [exact H|]. split; [exact Hr|]. split; [exact Hs|exact Hf].
Defined.

(** X11.  An exception of [browser.close()] in the [finally] replaces the
    outcome of [verify_game_search]: whether the function returned or one of
    its calls raised, when the close raises [x] the program ends with [x]. *)
Theorem refactor_close_failure_replaces_outcome p w x :
  (all_succeed p [] (take 9 Refactor.calls) = true ->
   p (take 9 Refactor.calls) Close = Raises x ->
   (Refactor.main true p w).1 = Exc x)
  /\
  (forall k e,
   first_failure p [] (take 9 Refactor.calls) = Some (k, e) ->
   (2 <= k)%nat ->
   p (take (S k) Refactor.calls) Close = Raises x ->
   (Refactor.main true p w).1 = Exc x /\
   session (Refactor.main true p w).2 = take (S k) Refactor.calls ++ [Close]).
Proof.
  split.
  - intros H Hc. refactor_table H. refactor_table Hc. run_refactor. reflexivity.
  - intros k e H Hk Hc. refactor_table H.
    run_refactor; try (exfalso; lia);
      refactor_table Hc;
      match goal with
      | Hr : _ _ Close = _ |- _ => rewrite Hr in Hc
      end;
      try discriminate Hc; injection Hc as <-; by repeat split.
Qed.

(** No Search Game button, and closing the browser fails as well. *)
Lemma refactor_close_failure_witness :
  first_failure no_search_button_no_close [] (take 9 Refactor.calls)
    = Some (6%nat, timeout_error "get_by_role('button', name='Buscar Jogo')") /\
  no_search_button_no_close (take 7 Refactor.calls) Close
    = Raises (mk_exn "Error" "Target closed" true) /\
  (Refactor.main true no_search_button_no_close fresh).1
    = Exc (mk_exn "Error" "Target closed" true).
Proof.
  assert (H : first_failure no_search_button_no_close [] (take 9 Refactor.calls)
              = Some (6%nat, timeout_error "get_by_role('button', name='Buscar Jogo')"))
    by (vm_compute; reflexivity).
  split; [exact H|]. split; [vm_compute; reflexivity|].
  exact (proj1 (proj2 (refactor_close_failure_replaces_outcome
                         no_search_button_no_close fresh
                         (mk_exn "Error" "Target closed" true))
                  6%nat _ H ltac:(lia) eq_refl)).
Defined.

(** X12.  The launch and the page creation of verify_refactor.py are
    written before the [try]: when one of them raises, the program ends with
    that exception, [verify_game_search] is not entered, nothing is written,
    and [browser.close()] is not called, also when the browser had been
    launched and it is the page creation that fails. *)
Theorem refactor_setup_failure_skips_finally p w k e :
  first_failure p [] (take 9 Refactor.calls) = Some (k, e) ->
  (k < 2)%nat ->
  let r := Refactor.main true p w in
  r.1 = Exc e /\
  session r.2 = take (S k) Refactor.calls /\
  closes (session r.2) = 0%nat /\
  fs r.2 = fs w.
Proof.
  intros H Hk. cbv zeta. refactor_table H.
  run_refactor; try (exfalso; lia); by repeat split.
Qed.

(** The browser starts but no page can be created. *)
Lemma refactor_setup_failure_witness :
  first_failure no_page [] (take 9 Refactor.calls)
    = Some (1%nat, mk_exn "Error" "Target closed" true) /\
  session (Refactor.main true no_page fresh).2 = [Launch true; NewPage] /\
  closes (session (Refactor.main true no_page fresh).2) = 0%nat.
Proof.
  assert (H : first_failure no_page [] (take 9 Refactor.calls)
              = Some (1%nat, mk_exn "Error" "Target closed" true))
    by (vm_compute; reflexivity).
  destruct (refactor_setup_failure_skips_finally no_page fresh 1
              (mk_exn "Error" "Target closed" true) H ltac:(lia))
    as (_ & Hs & Hc & _).
  split; [exact H|]. split; [exact Hs|exact Hc].
Defined.

(** X13.  verify_refactor.py returns normally exactly when every one of its
    ten browser calls, the close included, returned. *)
Theorem refactor_returns_iff_every_call_returned p w :
  (Refactor.main true p w).1 = Val tt
  <-> all_succeed p [] Refactor.calls = true.
Proof.
  destruct (all_succeed p [] Refactor.calls) eqn:H; refactor_table H;
    run_refactor; split; intros; (done || discriminate).
Qed.
